(** * ConceptCycle front end: identifier codec and workflow handlers

    A shallow embedding of [src/main.py].  Python strings are sequences of
    Unicode code points, JSON payloads are Python values, and the HTTP
    traffic of the API wrappers is an explicit tree of requests. *)

From Stdlib Require Import ZArith NArith Lia.
From Stdlib Require Import Floats.SpecFloat.
From stdpp Require Import base option list gmap strings pretty.

Set Warnings "-register-all".
Set Default Proof Using "Type".

(** ** Python strings *)

Module PyStr.

(** A [str] is a list of code points. *)
Definition char := N.
Definition str := list N.

(** An ASCII literal of the source. *)
Definition lit (s : string) : str :=
  Ascii.N_of_ascii <$> String.list_ascii_of_string s.

Definition SPACE : char := 32%N.
(** U+2014, the dash of the display labels. *)
Definition EM_DASH : char := 8212%N.

(** [s.startswith(p)] *)
Fixpoint starts_with (p s : str) : bool :=
  match p, s with
  | [], _ => true
  | _ :: _, [] => false
  | a :: p', b :: s' => (a =? b)%N && starts_with p' s'
  end.

(** [s.find(sub)]: index of the leftmost occurrence. *)
Fixpoint find (sub s : str) : option nat :=
  if starts_with sub s then Some 0
  else match s with
       | [] => None
       | _ :: s' => S <$> find sub s'
       end.

(** [sub in s] *)
Definition contains (sub s : str) : bool :=
  match find sub s with Some _ => true | None => false end.

(** [s.endswith(p)] *)
Definition ends_with (p s : str) : bool :=
  starts_with (reverse p) (reverse s).

(** [s.split(sep)] for a non-empty [sep]: cut at the leftmost occurrence
    and go on behind it.  Every cut removes at least one character, so
    [length s] rounds are enough ([split_unfold]). *)
Fixpoint split_fuel (n : nat) (sep s : str) : list str :=
  match n with
  | 0 => [s]
  | S n' =>
      match find sep s with
      | None => [s]
      | Some i => take i s :: split_fuel n' sep (drop (i + length sep) s)
      end
  end.

Definition split (sep s : str) : list str := split_fuel (length s) sep s.

(** [str.isspace] on one code point, the characters [strip()] removes. *)
Definition is_space (c : char) : bool :=
  ((9 <=? c) && (c <=? 13) || (28 <=? c) && (c <=? 32)
   || (c =? 133) || (c =? 160) || (c =? 5760)
   || (8192 <=? c) && (c <=? 8202)
   || (c =? 8232) || (c =? 8233) || (c =? 8239) || (c =? 8287)
   || (c =? 12288))%N.

Fixpoint lstrip (s : str) : str :=
  match s with
  | c :: s' => if is_space c then lstrip s' else s
  | [] => []
  end.

(** [s.strip()] *)
Definition strip (s : str) : str := reverse (lstrip (reverse (lstrip s))).

End PyStr.
Export PyStr.

(** ** Python values *)

(** IEEE binary64, as the operations of [SpecFloat] compute it. *)
Definition f64_add := SFadd 53 1024.
Definition f64_sub := SFsub 53 1024.
Definition f64_mul := SFmul 53 1024.
Definition f64_div := SFdiv 53 1024.
(** The double nearest to [m * 2^e]. *)
Definition f64 (m e : Z) : spec_float := binary_normalize 53 1024 m e false.

(** A Python dict with text keys: its items in insertion order, which is
    the order a loop over the dict visits the keys in. *)
Record odict (A : Type) : Type := ODict { odict_items : list (str * A) }.
Arguments ODict {A} _.
Arguments odict_items {A} _.

(** [d.get(k)], as an option. *)
Fixpoint assoc {A} (k : str) (l : list (str * A)) : option A :=
  match l with
  | [] => None
  | (k', v) :: l' => if decide (k' = k) then Some v else assoc k l'
  end.

(** [d[k] = v]: the value is replaced where the key already stands, and a
    new key goes to the end. *)
Fixpoint assoc_set {A} (k : str) (v : A) (l : list (str * A)) : list (str * A) :=
  match l with
  | [] => [(k, v)]
  | (k', v') :: l' =>
      if decide (k' = k) then (k', v) :: l' else (k', v') :: assoc_set k v l'
  end.

#[global] Instance odict_lookup {A} : Lookup str A (odict A) :=
  λ k d, assoc k (odict_items d).
#[global] Instance odict_insert {A} : Insert str A (odict A) :=
  λ k v d, ODict (assoc_set k v (odict_items d)).
#[global] Instance odict_empty {A} : Empty (odict A) := ODict [].
#[global] Instance odict_singleton {A} : SingletonM str A (odict A) :=
  λ k v, ODict [(k, v)].
#[global] Instance odict_empty_dec {A} (d : odict A) : Decision (d = ∅).
Proof.
  destruct d as [[|kv l]]; [left; reflexivity | right; discriminate].
Defined.

(** What [json()] can return, and what the handlers pass around. *)
Inductive pyval :=
| VNone
| VBool (b : bool)
| VInt (z : Z)
| VFloat (f : spec_float)
| VStr (s : str)
| VList (l : list pyval)
| VDict (d : odict pyval).

Abbreviation dict := (odict pyval).

(** [bool(v)] *)
Definition truthy (v : pyval) : bool :=
  match v with
  | VNone => false
  | VBool b => b
  | VInt z => negb (z =? 0)%Z
  | VFloat f => match f with S754_zero _ => false | _ => true end
  | VStr s => match s with [] => false | _ => true end
  | VList l => match l with [] => false | _ => true end
  | VDict d => negb (bool_decide (d = ∅))
  end.

(** [d.get(k)] and [d.get(k, dflt)] *)
Definition dict_get (d : dict) (k : str) : pyval := default VNone (d !! k).
Definition dict_get_or (d : dict) (k : str) (dflt : pyval) : pyval :=
  default dflt (d !! k).

(** [a or b] with [b] evaluated only when needed. *)
Definition py_or {E} (a : pyval) (b : E + pyval) : E + pyval :=
  if truthy a then inr a else b.

(** Exceptions, by class; the text of the ones the server sends is data. *)
Inductive exn :=
| RequestException (msg : str)   (* connection errors and time-outs *)
| HTTPError (msg : str)          (* [raise_for_status] on a non-2xx answer *)
| JSONDecodeError (msg : str)
| KeyError (key : str)
| TypeError
| AttributeError
| IndexError
| ValueError
| OverflowError.

Definition result (A : Type) : Type := exn + A.
Definition pure {A} (a : A) : result A := inr a.
Definition raise {A} (e : exn) : result A := inl e.

(** ** The Python runtime

    How the interpreter prints values and exceptions, parses a float and
    reformats an ISO date is not repository code: these are parameters. *)
Record runtime := {
  (** [str(v)] of a value that is not a [str] *)
  repr_value : pyval → str;
  (** [str(exc)] *)
  exn_text : exn → str;
  (** [float(s)] for a [str] *)
  float_of_str : str → result spec_float;
  (** [datetime.fromisoformat(x).strftime("%Y-%m-%d")] *)
  iso_to_ymd : pyval → result str;
}.

(** [str(v)], which is also how an f-string renders [{v}]. *)
Definition py_str (rt : runtime) (v : pyval) : str :=
  match v with
  | VStr s => s
  | _ => repr_value rt v
  end.

(** ** Computations that raise *)

#[global] Instance result_ret : MRet result := λ A a, inr a.
#[global] Instance result_bind : MBind result :=
  λ A B f m, match m with inl e => inl e | inr a => f a end.

(** Sequencing, written as the source's assignments read: the computation
    first, then the code that uses its value. *)
Definition result_then {A B} (r : result A) (f : A → result B) : result B :=
  mbind f r.

Declare Scope result_scope.
Delimit Scope result_scope with result.
Bind Scope result_scope with result.
Notation "'let*' x ':=' p 'in' k" :=
  (result_then p (fun x => k))
  (at level 10, x pattern, p at level 100, k at level 200) : result_scope.

(** [for x in v]: the elements a loop or comprehension visits. *)
Definition py_iter (v : pyval) : result (list pyval) :=
  match v with
  | VList l => pure l
  | VStr s => pure ((fun c => VStr [c]) <$> s)
  | VDict d => pure (VStr <$> (odict_items d).*1)
  | _ => raise TypeError
  end.

(** [v[k]] for a string key. *)
Definition py_subscript (v : pyval) (k : str) : result pyval :=
  match v with
  | VDict d => match d !! k with Some x => pure x | None => raise (KeyError k) end
  | _ => raise TypeError
  end.

(** [v[1]] *)
Definition py_index1 (v : pyval) : result pyval :=
  match v with
  | VList l => match l !! 1 with Some x => pure x | None => raise IndexError end
  | VStr s => match s !! 1 with Some c => pure (VStr [c]) | None => raise IndexError end
  | VDict _ => raise (KeyError (lit "1"))
  | _ => raise TypeError
  end.

(** [v.get(k, dflt)]: only a dict has the method. *)
Definition py_get (v : pyval) (k : str) (dflt : pyval) : result pyval :=
  match v with
  | VDict d => pure (dict_get_or d k dflt)
  | _ => raise AttributeError
  end.

(** ** Identifier codec *)

Definition SEP : str := [SPACE; EM_DASH; SPACE].

(** A row of [list_notes]: (id, name, status), as the server sent them. *)
Definition note : Type := pyval * pyval * pyval.

Definition _format_note_choice (rt : runtime) (row : note) : str :=
  let '(nid, name, _status) := row in
  py_str rt name ++ SEP ++ py_str rt nid.

Definition _format_note_choices (rt : runtime) (rows : list note) : list str :=
  _format_note_choice rt <$> rows.

(** [x[:8]] *)
Definition slice8 (v : pyval) : result pyval :=
  match v with
  | VStr s => pure (VStr (take 8 s))
  | VList l => pure (VList (take 8 l))
  | _ => raise TypeError
  end.

Definition _format_quiz_choice (rt : runtime) (q : dict) : result str :=
  (let qid := dict_get_or q (lit "id") (VStr []) in
   let* qname := py_or (dict_get q (lit "name"))
                       (let* pre := slice8 qid in
                        pure (VStr (lit "Quiz " ++ py_str rt pre))) in
   pure (py_str rt qname ++ SEP ++ py_str rt qid))%result.

(** What [s.split(SEP)[-1]] evaluates to. *)
Definition last_segment (s : str) : str := default s (last (split SEP s)).

(** The first two characters of the separator. *)
Definition SEP_HEAD : str := [SPACE; EM_DASH].

Definition _extract_id_from_display (sel : option str) : option str :=
  match sel with
  | None => None
  | Some [] => None
  | Some s => if contains SEP s then last (split SEP s) else Some s
  end.

Definition _extract_ids_from_display_list (sel_list : option (list str)) : list str :=
  match sel_list with
  | None | Some [] => []
  | Some l =>
      (fun s => if contains SEP s then default s (last (split SEP s)) else s) <$> l
  end.

(** ** HTTP traffic *)

Inductive http_method := GET | POST | DELETE.

(** The keyword arguments the wrappers pass to [_request]. *)
Record kwargs := {
  kw_json : option pyval;
  kw_timeout : option Z;
}.
Definition no_kwargs : kwargs := {| kw_json := None; kw_timeout := None |}.

Record http_request := {
  rq_method : http_method;
  rq_url : str;
  rq_headers : gmap str str;
  rq_kwargs : kwargs;
}.

(** A [requests.Response]: what [raise_for_status()] and [json()] do. *)
Record response := {
  rsp_status_error : option str;   (* message of the HTTPError, if not 2xx *)
  rsp_json : result pyval;
}.

(** A handler run: it returns, raises, or sends a request and goes on
    with what [requests.request] gave back. *)
Inductive prog (A : Type) : Type :=
| Ret (a : A)
| Raise (e : exn)
| Send (rq : http_request) (k : result response → prog A).
Arguments Ret {A} a.
Arguments Raise {A} e.
Arguments Send {A} rq k.

Fixpoint prog_bind {A B} (f : A → prog B) (p : prog A) : prog B :=
  match p with
  | Ret a => f a
  | Raise e => Raise e
  | Send rq k => Send rq (fun r => prog_bind f (k r))
  end.

#[global] Instance prog_ret : MRet prog := λ A a, Ret a.
#[global] Instance prog_mbind : MBind prog := λ A B f p, prog_bind f p.

Definition prog_then {A B} (p : prog A) (f : A → prog B) : prog B :=
  prog_bind f p.

Declare Scope prog_scope.
Delimit Scope prog_scope with prog.
Bind Scope prog_scope with prog.
Notation "'let*' x ':=' p 'in' k" :=
  (prog_then p (fun x => k))
  (at level 10, x pattern, p at level 100, k at level 200) : prog_scope.

(** [try: p  except Exception as exc: h exc] *)
Fixpoint try_except {A} (p : prog A) (h : exn → prog A) : prog A :=
  match p with
  | Ret a => Ret a
  | Raise e => h e
  | Send rq k => Send rq (fun r => try_except (k r) h)
  end.

Definition lift {A} (r : result A) : prog A :=
  match r with inl e => Raise e | inr a => Ret a end.

(** A server answers a request, knowing the ones before it. *)
Definition server := list http_request → http_request → result response.

(** Running a handler against a server: the requests sent, in order, and
    the outcome. *)
Fixpoint run_from {A} (sv : server) (sent : list http_request) (p : prog A)
  : list http_request * result A :=
  match p with
  | Ret a => (sent, inr a)
  | Raise e => (sent, inl e)
  | Send rq k => run_from sv (sent ++ [rq]) (k (sv sent rq))
  end.

Definition run {A} (sv : server) (p : prog A) := run_from sv [] p.

(** ** Request helpers *)

Definition _auth_headers (token : str) : gmap str str :=
  match token with
  | [] => ∅
  | _ => {[ lit "Authorization" := lit "Bearer " ++ token ]}
  end.

(** [headers.update(other)]: the keys of [other] win. *)
Definition _request (method : http_method) (url token : str) (kw : kwargs)
  : prog response :=
  let headers := _auth_headers token ∪ (∅ : gmap str str) in
  Send {| rq_method := method; rq_url := url;
          rq_headers := headers; rq_kwargs := kw |} lift.

Definition raise_for_status (r : response) : prog unit :=
  match rsp_status_error r with
  | Some msg => Raise (HTTPError msg)
  | None => Ret tt
  end.

Definition json (r : response) : prog pyval := lift (rsp_json r).

Definition CROSS : str := [10060%N].          (* U+274C *)
Definition CHECK : str := [9989%N].           (* U+2705 *)
Definition WARN : str := [9888%N; 65039%N].   (* U+26A0 U+FE0F *)

(** [gr.update(...)]: the keyword arguments given. *)
Record update := {
  upd_choices : option (list str);
  upd_value : option pyval;
  upd_interactive : option bool;
}.

(** One output of a handler. *)
Inductive output :=
| OVal (v : pyval)
| OUpdate (u : update).

(** [{"error": v}] *)
Definition error_payload (v : pyval) : pyval := VDict {[ lit "error" := v ]}.

(** What the answer table hands to [_submit_quiz]: a pandas frame (column
    labels with their cells) or any other value. *)
Inductive dataframe :=
| DfPandas (columns : gmap str (list pyval))
| DfValue (v : pyval).

(** The [outputs] of [create_quiz_btn.click]. *)
Definition create_quiz_btn_outputs : list string :=
  ["Quiz metadata"; "active_quiz_df"; "cfg_state"]%string.

(** [gr.State({"last_note_id": None, "last_quiz_id": None})] *)
Definition cfg_state : dict :=
  ODict [(lit "last_note_id", VNone); (lit "last_quiz_id", VNone)].

Section Client.

Context (rt : runtime).
(** Read from the environment when the module is loaded. *)
Context (API_URL API_TOKEN : str).

Local Open Scope prog_scope.

(** ** API wrappers *)

Definition list_notes (api_url token : str) : prog (list note) :=
  let* r := _request GET (api_url ++ lit "/notes") token no_kwargs in
  let* _ := raise_for_status r in
  let* body := json r in
  let* ns := lift (py_iter body) in
  lift (mapM (fun n =>
                let* i := py_subscript n (lit "id") in
                let* nm := py_subscript n (lit "name") in
                let* st := py_subscript n (lit "status") in
                mret (i, nm, st))%result ns).

Definition process_note (api_url token note_id : str) : prog (bool * str) :=
  try_except
    (let* r := _request POST (api_url ++ lit "/notes/" ++ note_id ++ lit "/process")
           token {| kw_json := None; kw_timeout := Some 120%Z |} in
     let* _ := raise_for_status r in
     let* msg := json r in
     let* n := lift (py_subscript msg (lit "concepts_generated")) in
     mret (true, CHECK ++ lit " Generated " ++ py_str rt n ++ lit " concepts."))
    (fun exc => mret (false, CROSS ++ lit " " ++ exn_text rt exc)).

Definition list_concepts (api_url token note_id : str) : prog pyval :=
  let* r := _request GET (api_url ++ lit "/notes/" ++ note_id ++ lit "/concepts")
        token no_kwargs in
  let* _ := raise_for_status r in
  json r.

Definition create_quiz (api_url token : str) (note_ids : list str)
    (concept_limit question_limit mode : pyval) : prog (bool * pyval) :=
  let payload := VDict (ODict [(lit "note_ids", VList (VStr <$> note_ids));
                              (lit "concept_limit", concept_limit);
                              (lit "question_limit", question_limit);
                              (lit "mode", mode)]) in
  try_except
    (let* r := _request POST (api_url ++ lit "/quizzes") token
           {| kw_json := Some payload; kw_timeout := None |} in
     let* _ := raise_for_status r in
     let* body := json r in
     mret (true, body))
    (fun exc => mret (false, VStr (CROSS ++ lit " " ++ exn_text rt exc))).

Definition submit_quiz (api_url token : str) (quiz_id : pyval)
    (responses : list str) : prog (bool * pyval) :=
  let payload := VDict {[ lit "responses" := VList (VStr <$> responses) ]} in
  try_except
    (let* r := _request POST
                 (api_url ++ lit "/quizzes/" ++ py_str rt quiz_id ++ lit "/submit")
           token {| kw_json := Some payload; kw_timeout := None |} in
     let* _ := raise_for_status r in
     let* body := json r in
     mret (true, body))
    (fun exc => mret (false, VStr (CROSS ++ lit " " ++ exn_text rt exc))).

Definition delete_note (api_url token note_id : str) : prog (bool * pyval) :=
  try_except
    (let* r := _request DELETE (api_url ++ lit "/notes/" ++ note_id) token no_kwargs in
     let* _ := raise_for_status r in
     let* body := json r in
     mret (true, body))
    (fun exc => mret (false, VStr (CROSS ++ lit " " ++ exn_text rt exc))).

(** ** Notes tab *)

(** [choices[0] if choices else None] *)
Definition first_or_none (choices : list str) : pyval :=
  match choices with
  | c :: _ => VStr c
  | [] => VNone
  end.

Definition _refresh_notes (_cfg : dict) : prog (pyval * update) :=
  let* notes := list_notes API_URL API_TOKEN in
  let rows := (fun n : note => VList [n.1.2; n.2]) <$> notes in
  let choices := _format_note_choices rt notes in
  let selected_val := first_or_none choices in
  mret (VList rows,
        {| upd_choices := Some choices; upd_value := Some selected_val;
           upd_interactive := None |}).

Definition _process (cfg : dict) (sel_note_display : option str)
  : prog (str * dict) :=
  match _extract_id_from_display sel_note_display with
  | None | Some [] => mret (WARN ++ lit " No note selected.", cfg)
  | Some nid =>
      let* (ok, msg) := process_note API_URL API_TOKEN nid in
      let new_cfg := cfg in
      let new_cfg :=
        <[ lit "last_note_id" :=
             if ok then VStr nid else dict_get cfg (lit "last_note_id") ]> new_cfg in
      mret (msg, new_cfg)
  end.

Definition _delete_note (cfg : dict) (sel_note_display : option str)
  : prog (str * pyval * update) :=
  let cleared := {| upd_choices := Some []; upd_value := Some VNone;
                    upd_interactive := None |} in
  match _extract_id_from_display sel_note_display with
  | None | Some [] => mret (WARN ++ lit " No note selected.", VList [], cleared)
  | Some nid =>
      let* (ok, msg) := delete_note API_URL API_TOKEN nid in
      if negb ok then
        mret (CROSS ++ lit " " ++ py_str rt msg, VList [], cleared)
      else
        let* notes := list_notes API_URL API_TOKEN in
        let rows := (fun n : note => VList [n.1.1; n.1.2; n.2]) <$> notes in
        let choices := _format_note_choices rt notes in
        let upd_selected := {| upd_choices := Some choices;
                               upd_value := Some VNone;
                               upd_interactive := None |} in
        mret (CHECK ++ lit " Note deleted.", VList rows, upd_selected)
  end.

(** ** Concepts tab *)

(** [float(x)] *)
Definition py_float (x : pyval) : result spec_float :=
  match x with
  | VFloat f => pure f
  | VInt z =>
      match binary_normalize 53 1024 z 0 false with
      | S754_infinity _ => raise OverflowError
      | f => pure f
      end
  | VBool b => pure (if b then f64 1 0 else f64 0 0)
  | VStr s => float_of_str rt s
  | _ => raise TypeError
  end.

(** [num / den] rounded to the nearest integer, ties to even ([den > 0]). *)
Definition div_half_even (num den : Z) : Z :=
  let q := (num / den)%Z in
  match (2 * (num mod den) ?= den)%Z with
  | Lt => q
  | Gt => (q + 1)%Z
  | Eq => if Z.even q then q else (q + 1)%Z
  end.

(** [round(x, 2)] of a float: the exact value is rounded to two decimals,
    ties to even, and the decimal read back as the nearest double. *)
Definition py_round2 (x : spec_float) : result spec_float :=
  match x with
  | S754_finite sg m e =>
      let hundredths :=
        match e with
        | Zneg k => div_half_even (Zpos m * 100) (2 ^ Zpos k)
        | _ => (Zpos m * 100 * 2 ^ e)%Z
        end in
      match hundredths with
      | Zpos n =>
          match f64_div (S754_finite sg n 0) (S754_finite false 100 0) with
          | S754_infinity _ => raise OverflowError
          | y => pure y
          end
      | _ => pure (S754_zero sg)
      end
  | _ => pure x
  end.

(** What rounding to two decimals asks of the count [n] of hundredths: [n]
    is an integer nearest to [num / den], the even one when two are as
    near ([den > 0]). *)
Definition rounds_half_even (num den n : Z) : Prop :=
  (Z.abs (2 * num - 2 * n * den) ≤ den)%Z
  ∧ ((Z.abs (2 * num - 2 * n * den) = den)%Z → Z.even n = true).

Definition stability_cell (s : pyval) : result pyval :=
  (let* x := py_get s (lit "stability") VNone in
   if negb (truthy x) then pure (VStr [])
   else
     let* f := py_float x in
     let* r := py_round2 f in
     pure (VFloat r))%result.

Definition difficulty_cell (s : pyval) : result pyval :=
  (let* x := py_get s (lit "difficulty") VNone in
   if negb (truthy x) then pure (VStr [])
   else
     let* f := py_float x in
     let* r := py_round2
                 (f64_mul (f64_div (f64_sub f (f64 1 0)) (f64 9 0)) (f64 100 0)) in
     pure (VFloat r))%result.

Definition date_cell (key : str) (s : pyval) : result pyval :=
  (let* x := py_get s key (VStr []) in
   if negb (truthy x) then pure (VStr [])
   else
     let* d := iso_to_ymd rt x in
     pure (VStr d))%result.

(** The body of the loop of [_load_concepts]: the row of one concept. *)
Definition concept_row (c : pyval) : result (list pyval) :=
  (let* s := py_get c (lit "srs_info") (VDict ∅) in
   let* name := py_get c (lit "name") (VStr []) in
   let* content := py_get c (lit "content") (VStr []) in
   let* stability := stability_cell s in
   let* difficulty := difficulty_cell s in
   let* due := date_cell (lit "due") s in
   let* last_review := date_cell (lit "last_review") s in
   pure [name; content; stability; difficulty; due; last_review])%result.

Definition _load_concepts (_cfg : dict) (sel_note_display : option str)
  : prog pyval :=
  match _extract_id_from_display sel_note_display with
  | None | Some [] => mret (VList [])
  | Some nid =>
      let* raw := list_concepts API_URL API_TOKEN nid in
      let* cs := lift (py_iter raw) in
      let* rows := lift (mapM concept_row cs) in
      mret (VList (VList <$> rows))
  end.

(** ** Quizzes tab *)

Definition value_update (rows : list pyval) : update :=
  {| upd_choices := None; upd_value := Some (VList rows);
     upd_interactive := None |}.

(** The end of [_create_quiz], once [create_quiz] has succeeded. *)
Definition quiz_created (cfg : dict) (out : pyval) : result (list output) :=
  (let new_cfg := cfg in
   let* qid := py_subscript out (lit "id") in
   let new_cfg := <[ lit "last_quiz_id" := qid ]> new_cfg in
   let* qs := py_get out (lit "questions") (VList []) in
   let* qs := py_iter qs in
   let* rows := mapM (fun q => let* t := py_subscript q (lit "question") in
                               pure (VList [t; VStr []])) qs in
   pure [OVal out; OUpdate (value_update rows); OVal (VDict new_cfg)])%result.

(** The returned tuple is a list of outputs: its length differs between
    the [return] statements. *)
Definition _create_quiz (cfg : dict) (sel_note_displays : option (list str))
    (climit qlimit mode : pyval) : prog (list output) :=
  let note_ids := _extract_ids_from_display_list sel_note_displays in
  match note_ids with
  | [] => mret [OVal (error_payload (VStr (lit "Select at least one note.")));
                OUpdate (value_update [])]
  | _ =>
      let* (ok, out) := create_quiz API_URL API_TOKEN note_ids climit qlimit mode in
      if negb ok then
        mret [OVal (error_payload out); OUpdate (value_update [])]
      else
        lift (quiz_created cfg out)
  end.

(** The [try] block of [_submit_quiz]; [answers] stays [[]] when it raises. *)
Definition read_answers (df : dataframe) : result (list str) :=
  match df with
  | DfPandas columns =>
      match columns !! lit "answer" with
      | Some cells => pure ((fun r => strip (py_str rt r)) <$> cells)
      | None => raise ValueError      (* [if df] on a frame *)
      end
  | DfValue v =>
      if truthy v then
        (let* rows := py_iter v in
         mapM (fun row => let* x := py_index1 row in
                          pure (strip (py_str rt x))) rows)%result
      else pure []
  end.

Definition answers_of (df : dataframe) : list str :=
  match read_answers df with
  | inl _ => []
  | inr answers => answers
  end.

(** [all(map(bool, answers))] *)
Definition all_attempted (answers : list str) : bool :=
  forallb (fun a => truthy (VStr a)) answers.

Definition _submit_quiz (cfg : dict) (df : dataframe) : prog pyval :=
  let quiz_id := dict_get cfg (lit "last_quiz_id") in
  if negb (truthy quiz_id) then
    mret (error_payload (VStr (lit "No quiz loaded in this session.")))
  else
    let answers := answers_of df in
    if negb (truthy (VList (VStr <$> answers))) || negb (all_attempted answers) then
      mret (error_payload
              (VStr (lit "All questions must be attempted before submission")))
    else
      let* (ok, out) := submit_quiz API_URL API_TOKEN quiz_id answers in
      if negb ok then mret (error_payload out)
      else mret out.

End Client.

(** ** The other wrappers and handlers *)

(** [None] or the text, as a value. *)
Definition opt_val (o : option str) : pyval :=
  match o with
  | Some s => VStr s
  | None => VNone
  end.

(** [v == "text"] *)
Definition py_eq_str (v : pyval) (s : str) : bool :=
  match v with
  | VStr t => bool_decide (t = s)
  | _ => false
  end.

(** [[q for q in qs if q.get("status") == status]] *)
Fixpoint quizzes_with_status (status : str) (qs : list pyval)
  : result (list pyval) :=
  match qs with
  | [] => pure []
  | q :: qs' =>
      (let* st := py_get q (lit "status") VNone in
       let* rest := quizzes_with_status status qs' in
       pure (if py_eq_str st status then q :: rest else rest))%result
  end.

(** [_format_quiz_choice(q)] for an element of the listing: its first
    [q.get] needs a dict. *)
Definition format_quiz_value (rt : runtime) (q : pyval) : result str :=
  match q with
  | VDict d => _format_quiz_choice rt d
  | _ => raise AttributeError
  end.

(** What the server's answer to [rq] gives a wrapper that calls
    [raise_for_status()] and then [json()]. *)
Definition answer_json (sv : server) (sent : list http_request)
    (rq : http_request) : result pyval :=
  match sv sent rq with
  | inl e => raise e
  | inr r =>
      match rsp_status_error r with
      | Some msg => raise (HTTPError msg)
      | None => rsp_json r
      end
  end.

(** The request [_request] sends. *)
Definition request_of (method : http_method) (url token : str) (kw : kwargs)
  : http_request :=
  {| rq_method := method; rq_url := url;
     rq_headers := _auth_headers token; rq_kwargs := kw |}.

(** Every request a run can send satisfies [P]. *)
Inductive each_request {A} (P : http_request → Prop) : prog A → Prop :=
| each_request_ret a : each_request P (Ret a)
| each_request_raise e : each_request P (Raise e)
| each_request_send rq k :
    P rq → (∀ r, each_request P (k r)) → each_request P (Send rq k).

(** A request to the configured API: the URL starts with the base URL and
    the only header is the bearer token, when there is a token. *)
Definition to_configured_api (api_url token : str) (rq : http_request) : Prop :=
  starts_with api_url (rq_url rq) = true
  ∧ rq_headers rq
    = match token with
      | [] => ∅
      | _ => {[ lit "Authorization" := lit "Bearer " ++ token ]}
      end.

Definition timeout_of (rq : http_request) : option Z := kw_timeout (rq_kwargs rq).

(** The comprehension of [list_notes] on a decoded body. *)
Definition notes_of (body : pyval) : result (list note) :=
  (let* ns := py_iter body in
   mapM (fun n =>
           let* i := py_subscript n (lit "id") in
           let* nm := py_subscript n (lit "name") in
           let* st := py_subscript n (lit "status") in
           mret (i, nm, st)) ns)%result.

(** [(False, f"❌ {exc}")], the failure of a wrapper. *)
Definition failed (rt : runtime) (e : exn) : bool * pyval :=
  (false, VStr (CROSS ++ lit " " ++ exn_text rt e)).

Section ClientRest.

Context (rt : runtime).
Context (API_URL API_TOKEN : str).

Local Open Scope prog_scope.

Definition upload_text (api_url token : str) (name content : pyval)
  : prog (bool * pyval) :=
  if negb (truthy name) || negb (truthy content) then
    mret (false, VStr (CROSS ++ lit " Both name and content are required."))
  else
    let payload := VDict (ODict [(lit "name", name); (lit "content", content)]) in
    try_except
      (let* r := _request POST (api_url ++ lit "/notes/text") token
                   {| kw_json := Some payload; kw_timeout := None |} in
       let* _ := raise_for_status r in
       let* body := json r in
       let* note_id := lift (py_subscript body (lit "note_id")) in
       mret (true, note_id))
      (fun exc => mret (false, VStr (CROSS ++ lit " " ++ exn_text rt exc))).

Definition get_note_content (api_url token note_id : str) : prog pyval :=
  let* r := _request GET (api_url ++ lit "/notes/" ++ note_id) token no_kwargs in
  let* _ := raise_for_status r in
  let* body := json r in
  lift (py_subscript body (lit "content")).

Definition list_quizzes (api_url token : str) : prog pyval :=
  let* r := _request GET (api_url ++ lit "/quizzes") token no_kwargs in
  let* _ := raise_for_status r in
  json r.

Definition get_quiz_by_id (api_url token : str) (quiz_id : pyval) : prog pyval :=
  let* r := _request GET (api_url ++ lit "/quizzes/" ++ py_str rt quiz_id)
              token no_kwargs in
  let* _ := raise_for_status r in
  json r.

Definition _upload_txt (_cfg : dict) (name cont : pyval) : prog pyval :=
  let* (ok, out) := upload_text API_URL API_TOKEN name cont in
  mret (if ok then out else VStr (CROSS ++ lit " " ++ py_str rt out)).

Definition _show_content (_cfg : dict) (sel_note_display : option str)
  : prog pyval :=
  match _extract_id_from_display sel_note_display with
  | None | Some [] => mret (VStr (WARN ++ lit " No note selected."))
  | Some nid =>
      try_except (get_note_content API_URL API_TOKEN nid)
        (fun exc => mret (VStr (CROSS ++ lit " " ++ exn_text rt exc)))
  end.

Definition _refresh_concept (_cfg : dict) : prog update :=
  let* notes := list_notes API_URL API_TOKEN in
  let choices := _format_note_choices rt notes in
  mret {| upd_choices := Some choices; upd_value := Some (first_or_none choices);
          upd_interactive := None |}.

Definition _refresh_quiz_notes (_cfg : dict) : prog update :=
  let* notes := list_notes API_URL API_TOKEN in
  let choices := _format_note_choices rt notes in
  mret {| upd_choices := Some choices; upd_value := Some VNone;
          upd_interactive := None |}.

(** The body shared by [_refresh_active_quizzes] and
    [_refresh_completed_quizzes], which differ in the status they keep. *)
Definition refresh_quizzes (status : str) : prog update :=
  let* listed := list_quizzes API_URL API_TOKEN in
  let* qs := lift (py_iter listed) in
  let* quizzes := lift (quizzes_with_status status qs) in
  let* choices := lift (mapM (format_quiz_value rt) quizzes) in
  mret {| upd_choices := Some choices; upd_value := Some (first_or_none choices);
          upd_interactive := None |}.

Definition _refresh_active_quizzes (_cfg : dict) : prog update :=
  refresh_quizzes (lit "active").

Definition _refresh_completed_quizzes (_cfg : dict) : prog update :=
  refresh_quizzes (lit "completed").

Definition _load_active_quiz (cfg : dict) (sel_q_display : option str)
  : prog (update * dict) :=
  match sel_q_display with
  | None | Some [] => mret (value_update [], cfg)
  | Some _ =>
      let qid := opt_val (_extract_id_from_display sel_q_display) in
      let* data := get_quiz_by_id API_URL API_TOKEN qid in
      let new_cfg := cfg in
      let new_cfg := <[ lit "last_quiz_id" := qid ]> new_cfg in
      let* st := lift (py_get data (lit "status") VNone) in
      let readonly := negb (py_eq_str st (lit "active")) in
      let* qs := lift (py_get data (lit "questions") (VList [])) in
      let* qs := lift (py_iter qs) in
      let* rows := lift (mapM (fun q =>
                                 let* t := py_get q (lit "question") (VStr []) in
                                 pure (VList [t; VStr []]))%result qs) in
      mret ({| upd_choices := None; upd_value := Some (VList rows);
               upd_interactive := Some (negb readonly) |}, new_cfg)
  end.

(** One row of the completed-quiz table. *)
Definition completed_row (q : pyval) : result pyval :=
  (let* question := py_get q (lit "question") (VStr []) in
   let* response := py_get q (lit "response") (VStr []) in
   let* grade := py_get q (lit "grade") (VStr []) in
   let* feedback := py_get q (lit "feedback") (VStr []) in
   pure (VList [question; response; grade; feedback]))%result.

Definition _load_completed_quiz (_cfg : dict) (sel_q_display : option str)
  : prog update :=
  match sel_q_display with
  | None | Some [] => mret (value_update [])
  | Some _ =>
      let qid := opt_val (_extract_id_from_display sel_q_display) in
      let* fetched := try_except
                        (let* data := get_quiz_by_id API_URL API_TOKEN qid in
                         mret (Some data))
                        (fun _ => mret None) in
      match fetched with
      | None => mret (value_update [])
      | Some data =>
          let* qs := lift (py_get data (lit "questions") (VList [])) in
          let* qs := lift (py_iter qs) in
          let* rows := lift (mapM completed_row qs) in
          mret (value_update rows)
      end
  end.

(** The request of [_submit_quiz] for the quiz [qid] and these answers. *)
Definition submit_request (qid : pyval) (answers : list str) : http_request :=
  request_of POST
    (API_URL ++ lit "/quizzes/" ++ py_str rt qid ++ lit "/submit") API_TOKEN
    {| kw_json := Some (VDict {[ lit "responses" := VList (VStr <$> answers) ]});
       kw_timeout := None |}.

(** The request of [get_quiz_by_id]. *)
Definition quiz_request (quiz_id : pyval) : http_request :=
  request_of GET (API_URL ++ lit "/quizzes/" ++ py_str rt quiz_id) API_TOKEN
    no_kwargs.

End ClientRest.

(** ** Sample environment

    A runtime and servers to evaluate the handlers on concrete inputs. *)

Definition sample_runtime : runtime := {|
  repr_value := fun v =>
    match v with
    | VNone => lit "None"
    | VBool true => lit "True"
    | VBool false => lit "False"
    | VInt z => lit (pretty z)
    | _ => lit "<object>"
    end;
  exn_text := fun e =>
    match e with
    | RequestException m | HTTPError m | JSONDecodeError m => m
    | KeyError k => lit "'" ++ k ++ lit "'"
    | _ => lit "error"
    end;
  float_of_str := fun _ => raise ValueError;
  iso_to_ymd := fun v =>
    match v with
    | VStr s => pure (take 10 s)
    | _ => raise TypeError
    end;
|}.

(** A server that answers every request with status 200 and body [body]. *)
Definition server_ok (body : pyval) : server :=
  fun _ _ => pure {| rsp_status_error := None; rsp_json := pure body |}.

(** A server whose every answer is a 500. *)
Definition server_down : server :=
  fun _ _ => pure {| rsp_status_error := Some (lit "500 Server Error");
                     rsp_json := raise (JSONDecodeError (lit "no body")) |}.

(** The server lists one note, "Photosynthesis", and accepts the delete. *)
Definition one_note_server : server :=
  server_ok (VList [VDict (<[ lit "id" := VStr (lit "n1") ]>
                          (<[ lit "name" := VStr (lit "Photosynthesis") ]>
                          {[ lit "status" := VStr (lit "uploaded") ]}))]).

(** An active quiz with one question, and a listing of two quizzes. *)
Definition sample_question : dict := {[ lit "question" := VStr (lit "Why?") ]}.

Definition sample_quiz : dict :=
  <[ lit "status" := VStr (lit "active") ]>
    {[ lit "questions" := VList [VDict sample_question] ]}.

Definition sample_quizzes : list dict :=
  [ <[ lit "id" := VStr (lit "q1") ]> {[ lit "status" := VStr (lit "active") ]};
    <[ lit "id" := VStr (lit "q2") ]>
      (<[ lit "name" := VStr (lit "Rivers") ]>
         {[ lit "status" := VStr (lit "completed") ]}) ].



(** * Properties *)

(** ** Dicts *)

Section OdictFacts.

Context {A : Type}.
Implicit Types (d : odict A) (k : str) (v : A).

Lemma odict_lookup_empty k : (∅ : odict A) !! k = None.
Proof. reflexivity. Qed.

Lemma odict_lookup_insert_eq d k v : <[ k := v ]> d !! k = Some v.
Proof.
  destruct d as [l]. unfold lookup, insert, odict_lookup, odict_insert. cbn.
  induction l as [|[k' v'] l IH]; cbn.
  - by rewrite decide_True.
  - destruct (decide (k' = k)) as [->|Hne]; cbn.
    + by rewrite decide_True.
    + by rewrite decide_False.
Qed.

Lemma odict_lookup_insert_ne d k k' v : k ≠ k' → <[ k := v ]> d !! k' = d !! k'.
Proof.
  intros Hne. destruct d as [l].
  unfold lookup, insert, odict_lookup, odict_insert. cbn.
  induction l as [|[k0 v0] l IH]; cbn.
  - by rewrite decide_False.
  - destruct (decide (k0 = k)) as [->|Hne0]; cbn.
    + by rewrite !decide_False.
    + by rewrite IH.
Qed.

(** Writing back the value a key already has changes nothing, not even
    the order. *)
Lemma odict_insert_id d k v : d !! k = Some v → <[ k := v ]> d = d.
Proof.
  destruct d as [l]. unfold lookup, insert, odict_lookup, odict_insert. cbn.
  intros H. f_equal. induction l as [|[k' v'] l IH]; cbn in *; [done|].
  destruct (decide (k' = k)) as [->|Hne].
  - by injection H as ->.
  - by rewrite IH.
Qed.

End OdictFacts.

(** ** Strings *)

Section StringFacts.

Implicit Types (p s t r sub : str).

Lemma starts_with_spec p s : starts_with p s = true ↔ ∃ r, s = p ++ r.
Proof.
  revert s. induction p as [|a p IH]; intros s; simpl.
  - split; eauto.
  - destruct s as [|b s].
    + split; [done | intros [r Hr]; discriminate].
    + rewrite andb_true_iff, N.eqb_eq, IH. split.
      * intros [-> [r ->]]. by exists r.
      * intros [r Hr]. inversion Hr; subst. eauto.
Qed.

Lemma starts_with_app p r : starts_with p (p ++ r) = true.
Proof. apply starts_with_spec. eauto. Qed.

Lemma starts_with_length p s : starts_with p s = true → length p ≤ length s.
Proof.
  intros [r ->]%starts_with_spec. rewrite length_app. lia.
Qed.

(** Only the first [length p] characters matter. *)
Lemma starts_with_app_l p s r :
  length p ≤ length s → starts_with p (s ++ r) = starts_with p s.
Proof.
  revert s. induction p as [|a p IH]; intros [|b s] Hlen; simpl in *;
    try done; try lia.
  rewrite IH by lia. done.
Qed.

Lemma ends_with_spec p s : ends_with p s = true ↔ p `suffix_of` s.
Proof.
  unfold ends_with. rewrite starts_with_spec. split.
  - intros [r Hr]. exists (reverse r).
    apply (inj reverse). by rewrite reverse_app, reverse_involutive.
  - intros [k ->]. exists (reverse k). by rewrite reverse_app.
Qed.

Lemma find_bound sub s i : find sub s = Some i → i + length sub ≤ length s.
Proof.
  revert i. induction s as [|c s IH]; intros i; simpl.
  - destruct (starts_with sub []) eqn:E; [|done].
    intros [= <-]. apply starts_with_length in E. simpl in *. lia.
  - destruct (starts_with sub (c :: s)) eqn:E.
    + intros [= <-]. apply starts_with_length in E. simpl in *. lia.
    + destruct (find sub s) as [j|]; simpl; [|done].
      intros [= <-]. specialize (IH j eq_refl). lia.
Qed.

(** The leftmost occurrence in [s] stays the leftmost when text follows. *)
Lemma find_app_Some sub s r i :
  find sub s = Some i → find sub (s ++ r) = Some i.
Proof.
  revert i. induction s as [|c s IH]; intros i; simpl.
  - destruct (starts_with sub []) eqn:E; [|done].
    intros [= <-]. destruct sub; [|done]. by destruct r.
  - destruct (starts_with sub (c :: s)) eqn:E.
    + intros [= <-].
      change (c :: s ++ r) with ((c :: s) ++ r).
      rewrite starts_with_app_l, E; [done|]. by apply starts_with_length.
    + destruct (find sub s) as [j|] eqn:Hj; simpl; [|done].
      intros [= <-].
      change (c :: s ++ r) with ((c :: s) ++ r).
      rewrite starts_with_app_l, E.
      * by rewrite (IH j eq_refl).
      * apply find_bound in Hj. simpl. lia.
Qed.

Lemma find_None_starts sub s : find sub s = None → starts_with sub s = false.
Proof. destruct s; simpl; by destruct (starts_with sub _). Qed.

Lemma find_None_tail sub c s : find sub (c :: s) = None → find sub s = None.
Proof.
  simpl. destruct (starts_with sub (c :: s)); [done|].
  by destruct (find sub s).
Qed.

(** A text that holds [sub] is found to. *)
Lemma contains_app sub s r : contains sub (s ++ sub ++ r) = true.
Proof.
  unfold contains. induction s as [|c s IH]; simpl.
  - destruct sub; simpl; [by destruct r|].
    rewrite N.eqb_refl, starts_with_app. done.
  - destruct (starts_with sub (c :: s ++ sub ++ r)); [done|].
    destruct (find sub (s ++ sub ++ r)); done.
Qed.

(** *** [split] *)

Lemma split_fuel_enough sub n m s :
  sub ≠ [] → length s ≤ n → length s ≤ m →
  split_fuel n sub s = split_fuel m sub s.
Proof.
  intros Hsub. revert m s.
  assert (Hnil : ∀ k, split_fuel k sub [] = [[]]).
  { intros [|k]; simpl; [done|]. destruct sub; [done|]. done. }
  induction n as [|n IH]; intros m s Hn Hm.
  - destruct s; simpl in *; [|lia]. by rewrite Hnil.
  - destruct m as [|m].
    { destruct s; simpl in Hm; [|lia]. by rewrite !Hnil. }
    simpl. destruct (find sub s) as [i|] eqn:Hi; [|done].
    f_equal. apply find_bound in Hi.
    assert (0 < length sub) by (destruct sub; simpl; [done|lia]).
    apply IH; rewrite length_drop; lia.
Qed.

Lemma split_unfold sub s :
  sub ≠ [] →
  split sub s =
    match find sub s with
    | None => [s]
    | Some i => take i s :: split sub (drop (i + length sub) s)
    end.
Proof.
  intros Hsub. unfold split. destruct s as [|c s].
  - simpl. destruct sub; done.
  - change (length (c :: s)) with (S (length s)). cbn [split_fuel].
    destruct (find sub (c :: s)) as [i|] eqn:Hi; [|done].
    f_equal. apply find_bound in Hi.
    assert (0 < length sub) by (destruct sub; simpl; [done|lia]).
    apply split_fuel_enough; [done| |done].
    rewrite length_drop. simpl in *. lia.
Qed.

Lemma split_fuel_nonempty n sub s : split_fuel n sub s ≠ [].
Proof. destruct n; simpl; [done|]. by destruct (find sub s). Qed.

End StringFacts.

(** The model against what Python prints for the same texts. *)
Example split_three :
  split SEP (lit "a" ++ SEP ++ lit "b" ++ SEP ++ lit "c") = [lit "a"; lit "b"; lit "c"].
Proof. reflexivity. Qed.

Example split_shared_space :
  split SEP (lit "a" ++ SEP_HEAD ++ SEP ++ lit "id")
  = [lit "a"; [EM_DASH; SPACE] ++ lit "id"].
Proof. reflexivity. Qed.

Example split_doubled :
  split SEP (lit "a" ++ SEP ++ SEP ++ lit "id") = [lit "a"; []; lit "id"].
Proof. reflexivity. Qed.

Example strip_sample : strip (lit "  Paris " ++ [9; 10]%N) = lit "Paris".
Proof. reflexivity. Qed.

(** ** Identifier codec *)

Section Codec.

Implicit Types (s t r name nid : str).

Lemma SEP_nonempty : SEP ≠ [].
Proof. done. Qed.

Lemma split_SEP_unfold s :
  split SEP s =
    match find SEP s with
    | None => [s]
    | Some i => take i s :: split SEP (drop (i + 3) s)
    end.
Proof. apply (split_unfold SEP s SEP_nonempty). Qed.

Lemma last_split_SEP s : last (split SEP s) = Some (last_segment s).
Proof.
  unfold last_segment.
  destruct (last (split SEP s)) eqn:E; [done|].
  apply last_None in E. by apply split_fuel_nonempty in E.
Qed.

Lemma last_segment_unfold s :
  last_segment s =
    match find SEP s with
    | None => s
    | Some i => last_segment (drop (i + 3) s)
    end.
Proof.
  unfold last_segment at 1. rewrite split_SEP_unfold.
  destruct (find SEP s) as [i|]; [|done].
  rewrite last_cons, last_split_SEP. done.
Qed.

Lemma last_segment_None s : find SEP s = None → last_segment s = s.
Proof. intros H. by rewrite last_segment_unfold, H. Qed.

Lemma last_segment_Some s i :
  find SEP s = Some i → last_segment s = last_segment (drop (i + 3) s).
Proof. intros H. by rewrite last_segment_unfold, H. Qed.

(** Induction on a text along the cuts of [split]. *)
Lemma split_ind (P : str → Prop) :
  (∀ s, find SEP s = None → P s) →
  (∀ s i, find SEP s = Some i → P (drop (i + 3) s) → P s) →
  ∀ s, P s.
Proof.
  intros Hnone Hsome s.
  remember (length s) as n eqn:Hn.
  revert s Hn. induction n as [n IH] using lt_wf_ind. intros s ->.
  destruct (find SEP s) as [i|] eqn:Hi; [|by apply Hnone].
  apply (Hsome s i Hi). apply (IH (length (drop (i + 3) s))); [|done].
  apply find_bound in Hi. rewrite length_drop. simpl in Hi. lia.
Qed.

Lemma last_segment_suffix s : last_segment s `suffix_of` s.
Proof.
  induction s as [s Hs | s i Hi IH] using split_ind.
  - by rewrite last_segment_None.
  - rewrite (last_segment_Some s i Hi).
    etrans; [exact IH | apply suffix_drop].
Qed.

Lemma find_last_segment s : find SEP (last_segment s) = None.
Proof.
  induction s as [s Hs | s i Hi IH] using split_ind.
  - by rewrite last_segment_None.
  - by rewrite (last_segment_Some s i Hi).
Qed.

(** Cuts inside [name] are made as if [name] stood alone. *)
Lemma last_segment_app_sep name r :
  last_segment (name ++ SEP ++ r) = last_segment (last_segment name ++ SEP ++ r).
Proof.
  induction name as [s Hs | s i Hi IH] using split_ind.
  - by rewrite (last_segment_None s).
  - rewrite (last_segment_Some s i Hi), <- IH.
    rewrite (last_segment_Some (s ++ SEP ++ r) i) by by apply find_app_Some.
    rewrite drop_app_le; [done|].
    apply find_bound in Hi. simpl in Hi. lia.
Qed.

Lemma ends_with_cons_false p c s :
  ends_with p (c :: s) = false → ends_with p s = false.
Proof.
  intros H. destruct (ends_with p s) eqn:E; [|done].
  apply ends_with_spec in E. apply (suffix_cons_r _ _ c) in E.
  apply ends_with_spec in E. congruence.
Qed.

(** Behind a text with no separator that does not end in [" —"], the
    separator of the label is the first one found. *)
Lemma find_label_sep t r :
  find SEP t = None → ends_with SEP_HEAD t = false →
  find SEP (t ++ SEP ++ r) = Some (length t).
Proof.
  induction t as [|c t IH]; intros Hfind Hend.
  - done.
  - assert (Hhead : starts_with SEP ((c :: t) ++ SEP ++ r) = false).
    { destruct t as [|d [|e t]].
      - unfold SEP. cbn [app starts_with].
        destruct (SPACE =? c)%N; done.
      - unfold SEP. cbn [app starts_with].
        destruct (N.eqb_spec SPACE c) as [<-|]; [|done].
        destruct (N.eqb_spec EM_DASH d) as [<-|]; [|done].
        done.
      - rewrite starts_with_app_l by (simpl; lia).
        by apply find_None_starts. }
    rewrite <- app_comm_cons in *.
    cbn [find]. rewrite Hhead.
    rewrite IH; [done| |].
    + by apply find_None_tail in Hfind.
    + by apply ends_with_cons_false in Hend.
Qed.

(** The decoded label, in general. *)
Lemma extract_label name nid :
  _extract_id_from_display (Some (name ++ SEP ++ nid))
  = Some (last_segment (name ++ SEP ++ nid)).
Proof.
  unfold _extract_id_from_display.
  rewrite contains_app, last_split_SEP.
  by destruct name.
Qed.

Lemma last_segment_label name nid :
  contains SEP nid = false →
  ends_with SEP_HEAD (last_segment name) = false →
  last_segment (name ++ SEP ++ nid) = nid.
Proof.
  intros Hnid Hname.
  rewrite last_segment_app_sep.
  rewrite (last_segment_Some _ (length (last_segment name)))
    by (apply find_label_sep; [apply find_last_segment | done]).
  rewrite drop_app_add. change (drop 3 (SEP ++ nid)) with nid.
  apply last_segment_None.
  unfold contains in Hnid. by destruct (find SEP nid).
Qed.

End Codec.

Section CodecClaims.

Context (rt : runtime).
Implicit Types (name nid qid : str) (status : pyval) (q : dict).

Lemma last_segment_shorter s i :
  find SEP s = Some i → length (last_segment s) + 3 ≤ length s.
Proof.
  intros Hi. rewrite (last_segment_Some s i Hi).
  pose proof (suffix_length _ _ (last_segment_suffix (drop (i + 3) s))) as Hlen.
  rewrite length_drop in Hlen. apply find_bound in Hi. simpl in Hi. lia.
Qed.

Lemma find_app_None sub (s r : str) :
  find sub (s ++ r) = None → find sub s = None.
Proof.
  intros H. destruct (find sub s) as [i|] eqn:Hi; [|done].
  apply (find_app_Some _ _ r) in Hi. congruence.
Qed.

(** The round trip of a label holds in exactly these cases. *)
Lemma last_segment_label_iff name nid :
  last_segment (name ++ SEP ++ nid) = nid
  ↔ contains SEP nid = false ∧ ends_with SEP_HEAD (last_segment name) = false.
Proof.
  split; [|intros [? ?]; by apply last_segment_label].
  rewrite last_segment_app_sep.
  pose proof (find_last_segment name) as Ht.
  destruct (ends_with SEP_HEAD (last_segment name)) eqn:E.
  - (* the dash at the end of the name takes the separator's first space *)
    apply ends_with_spec in E as [u Hu]. rewrite Hu in *.
    assert (Hu_find : find SEP u = None) by by apply find_app_None in Ht.
    assert (Hu_end : ends_with SEP_HEAD u = false).
    { destruct (ends_with SEP_HEAD u) eqn:E2; [|done].
      apply ends_with_spec in E2 as [v ->].
      assert (contains SEP ((v ++ SEP_HEAD) ++ SEP_HEAD) = true) as Hc.
      { replace ((v ++ SEP_HEAD) ++ SEP_HEAD) with (v ++ SEP ++ [EM_DASH])
          by by rewrite <- app_assoc.
        apply contains_app. }
      unfold contains in Hc. by rewrite Ht in Hc. }
    replace ((u ++ SEP_HEAD) ++ SEP ++ nid)
      with (u ++ SEP ++ ([EM_DASH; SPACE] ++ nid)) by by rewrite <- app_assoc.
    rewrite (last_segment_Some _ (length u)) by by apply find_label_sep.
    rewrite drop_app_add.
    change (drop 3 (SEP ++ [EM_DASH; SPACE] ++ nid)) with (EM_DASH :: SPACE :: nid).
    intros Heq. exfalso.
    destruct (find SEP (EM_DASH :: SPACE :: nid)) as [i|] eqn:Hi.
    + apply last_segment_shorter in Hi. rewrite Heq in Hi. simpl in Hi. lia.
    + rewrite last_segment_None in Heq by done.
      apply (f_equal length) in Heq. simpl in Heq. lia.
  - rewrite (last_segment_Some _ (length (last_segment name)))
      by by apply find_label_sep.
    rewrite drop_app_add. change (drop 3 (SEP ++ nid)) with nid.
    intros Heq. split; [|done].
    unfold contains. destruct (find SEP nid) as [i|] eqn:Hi; [|done].
    apply last_segment_shorter in Hi. rewrite Heq in Hi. lia.
Qed.


(** The two conditions of [note_choice_roundtrip] are the only cases. *)
Lemma note_choice_roundtrip_iff nid name status :
  _extract_id_from_display
    (Some (_format_note_choice rt (VStr nid, VStr name, status)))
  = Some nid
  ↔ contains SEP nid = false ∧ ends_with SEP_HEAD (last_segment name) = false.
Proof.
  unfold _format_note_choice. cbn [py_str].
  rewrite extract_label, <- last_segment_label_iff.
  split; [by intros [= ?] | by intros ->].
Qed.



End CodecClaims.



(** An id that holds the separator is cut as well. *)
Lemma note_choice_id_with_separator :
  _extract_id_from_display
    (Some (_format_note_choice sample_runtime
             (VStr (lit "a" ++ SEP ++ lit "b"), VStr (lit "Drafts"), VNone)))
  = Some (lit "b").
Proof. reflexivity. Qed.



(** Without a name the fallback can end that way too, though the id holds
    no separator. *)
Lemma quiz_choice_unnamed_cut :
  let qid := lit "abcdef" ++ SEP_HEAD ++ lit "xyz" in
  let q : dict := {[ lit "id" := VStr qid ]} in
  let label := lit "Quiz abcdef" ++ SEP_HEAD ++ SEP ++ qid in
  contains SEP qid = false
  ∧ _format_quiz_choice sample_runtime q = inr label
  ∧ _extract_id_from_display (Some label) = Some ([EM_DASH; SPACE] ++ qid).
Proof. repeat split; vm_compute; reflexivity. Qed.

(** ** Computations that raise *)

Section ResultFacts.

Context {A B : Type}.

Lemma result_then_inr (r : result A) (f : A → result B) b :
  result_then r f = inr b ↔ ∃ a, r = inr a ∧ f a = inr b.
Proof.
  destruct r as [e|a]; unfold result_then; simpl; split.
  - done.
  - by intros (a & ? & _).
  - eauto.
  - by intros (a' & [= <-] & ?).
Qed.

Lemma result_then_inl (r : result A) (f : A → result B) e :
  result_then r f = inl e ↔ r = inl e ∨ ∃ a, r = inr a ∧ f a = inl e.
Proof.
  destruct r as [e'|a]; unfold result_then; simpl; split.
  - intros [= ->]. by left.
  - intros [[= ->] | (a & ? & _)]; done.
  - eauto.
  - intros [? | (a' & [= <-] & ?)]; done.
Qed.

End ResultFacts.

(** ** Running handlers *)

Section RunFacts.

Context {A B : Type} (sv : server).

Lemma run_from_then (p : prog A) (f : A → prog B) sent :
  run_from sv sent (prog_then p f) =
    match run_from sv sent p with
    | (sent', inr a) => run_from sv sent' (f a)
    | (sent', inl e) => (sent', inl e)
    end.
Proof.
  revert sent. induction p as [a|e|rq k IH]; intros sent; simpl; auto.
Qed.

Lemma run_from_try (p : prog A) (h : exn → prog A) sent :
  run_from sv sent (try_except p h) =
    match run_from sv sent p with
    | (sent', inr a) => (sent', inr a)
    | (sent', inl e) => run_from sv sent' (h e)
    end.
Proof.
  revert sent. induction p as [a|e|rq k IH]; intros sent; simpl; auto.
Qed.

Lemma run_from_lift (r : result A) sent : run_from sv sent (lift r) = (sent, r).
Proof. by destruct r. Qed.

End RunFacts.

Section WrapperFacts.

Context (rt : runtime) (sv : server).

(** A wrapper is a [try] whose handler returns: split on the run of its
    body. *)
Local Ltac wrapper_returns :=
  rewrite run_from_try;
  match goal with
  | |- context [run_from sv ?sent ?p] =>
      destruct (run_from sv sent p) as [? [?|[? ?]]]
  end; simpl; eauto.

Lemma process_note_returns url tok nid sent :
  ∃ sent' okflag msg,
    run_from sv sent (process_note rt url tok nid) = (sent', inr (okflag, msg)).
Proof. unfold process_note. wrapper_returns. Qed.

Lemma create_quiz_returns url tok ids cl ql mode sent :
  ∃ sent' okflag out,
    run_from sv sent (create_quiz rt url tok ids cl ql mode)
    = (sent', inr (okflag, out)).
Proof. unfold create_quiz. wrapper_returns. Qed.

Lemma delete_note_returns url tok nid sent :
  ∃ sent' okflag out,
    run_from sv sent (delete_note rt url tok nid) = (sent', inr (okflag, out)).
Proof. unfold delete_note. wrapper_returns. Qed.

Lemma submit_quiz_returns url tok qid answers sent :
  ∃ sent' okflag out,
    run_from sv sent (submit_quiz rt url tok qid answers)
    = (sent', inr (okflag, out)).
Proof. unfold submit_quiz. wrapper_returns. Qed.

End WrapperFacts.

(** ** Session state and the quiz form *)

Section WorkflowClaims.

Context (rt : runtime) (API_URL API_TOKEN : str).

(** C7: [_process] always returns.  With nothing selected the state is
    handed back as it is.  Otherwise [process_note] is called once; when
    it fails every key of the state reads as before (and the state is
    the same dict when it had [last_note_id]); only when it succeeds is
    [last_note_id] set, to the id of the processed note. *)
Theorem process_session_state (sv : server) (cfg : dict) (sel : option str) :
  ∃ sent msg cfg',
    run sv (_process rt API_URL API_TOKEN cfg sel) = (sent, inr (msg, cfg'))
    ∧ match _extract_id_from_display sel with
      | None | Some [] => sent = [] ∧ cfg' = cfg
      | Some nid =>
          ∃ okflag,
            run sv (process_note rt API_URL API_TOKEN nid)
            = (sent, inr (okflag, msg))
            ∧ if okflag then cfg' = <[ lit "last_note_id" := VStr nid ]> cfg
              else (∀ k, dict_get cfg' k = dict_get cfg k)
                   ∧ (is_Some (cfg !! lit "last_note_id") → cfg' = cfg)
      end.
Proof.
  unfold _process.
  destruct (_extract_id_from_display sel) as [[|c nid]|].
  - by eexists _, _, _.
  - destruct (process_note_returns rt sv API_URL API_TOKEN (c :: nid) [])
      as (sent & okflag & msg & Hrun).
    eexists sent, msg, _. split.
    + unfold run. rewrite run_from_then, Hrun. reflexivity.
    + exists okflag. split; [exact Hrun|].
      destruct okflag; [done|]. split.
      * intros k. unfold dict_get.
        destruct (decide (lit "last_note_id" = k)) as [<-|Hne].
        -- by rewrite odict_lookup_insert_eq.
        -- by rewrite odict_lookup_insert_ne.
      * intros [v Hv]. apply odict_insert_id. unfold dict_get. by rewrite Hv.
  - by eexists _, _, _.
Qed.

(** C3: with no quiz id in the session state ([last_quiz_id] absent,
    [None], or otherwise falsy), [_submit_quiz] sends no request and
    returns the error "No quiz loaded in this session." *)
Theorem submit_quiz_without_quiz (sv : server) (cfg : dict) (df : dataframe) :
  truthy (dict_get cfg (lit "last_quiz_id")) = false →
  run sv (_submit_quiz rt API_URL API_TOKEN cfg df)
  = ([], inr (error_payload (VStr (lit "No quiz loaded in this session."))))
  ∧ starts_with (lit "No quiz loaded") (lit "No quiz loaded in this session.")
    = true.
Proof.
  intros Hq. split; [|reflexivity].
  unfold _submit_quiz. by rewrite Hq.
Qed.

Lemma all_attempted_blank (answers : list str) :
  [] ∈ answers → all_attempted answers = false.
Proof.
  induction answers as [|a answers IH]; intros Hin.
  - by apply elem_of_nil in Hin.
  - apply elem_of_cons in Hin as [<-|Hin]; [done|].
    change (all_attempted (a :: answers))
      with (truthy (VStr a) && all_attempted answers).
    rewrite IH by done. apply andb_false_r.
Qed.

(** The answers of a pandas frame: its "answer" column, each cell as
    text, trimmed. *)
Lemma answers_of_pandas columns cells :
  columns !! lit "answer" = Some cells →
  answers_of rt (DfPandas columns) = (fun r => strip (py_str rt r)) <$> cells.
Proof. intros H. unfold answers_of, read_answers. by rewrite H. Qed.

(** C4: with a quiz id in the session state, when the trimmed answers
    are none at all or hold an empty one, [_submit_quiz] sends no
    request and returns an error payload. *)
Theorem submit_quiz_blank_answer (sv : server) (cfg : dict) (df : dataframe) :
  truthy (dict_get cfg (lit "last_quiz_id")) = true →
  answers_of rt df = [] ∨ [] ∈ answers_of rt df →
  run sv (_submit_quiz rt API_URL API_TOKEN cfg df)
  = ([], inr (error_payload
                (VStr (lit "All questions must be attempted before submission")))).
Proof.
  intros Hq Hblank. unfold _submit_quiz. rewrite Hq. cbn [negb].
  destruct Hblank as [-> | Hin]; [done|].
  rewrite (all_attempted_blank _ Hin). by rewrite orb_true_r.
Qed.

End WorkflowClaims.

Lemma submit_quiz_without_quiz_witness :
  truthy (dict_get cfg_state (lit "last_quiz_id")) = false
  ∧ run (server_ok VNone)
        (_submit_quiz sample_runtime (lit "http://localhost:5046") []
           cfg_state (DfPandas {[ lit "answer" := [VStr (lit "Paris")] ]}))
    = ([], inr (error_payload (VStr (lit "No quiz loaded in this session.")))).
Proof.
  split; [vm_compute; reflexivity|].
  apply (submit_quiz_without_quiz sample_runtime (lit "http://localhost:5046") []
           (server_ok VNone) cfg_state).
  vm_compute; reflexivity.
Defined.

Lemma submit_quiz_blank_answer_witness :
  let cfg : dict := <[ lit "last_quiz_id" := VStr (lit "q1") ]> cfg_state in
  let df := DfPandas
              (<[ lit "question" := [VStr (lit "Capital?"); VStr (lit "River?")] ]>
                 {[ lit "answer" := [VStr (lit "Paris"); VStr (lit "  ")] ]}) in
  answers_of sample_runtime df = [lit "Paris"; []]
  ∧ run (server_ok VNone)
        (_submit_quiz sample_runtime (lit "http://localhost:5046") [] cfg df)
    = ([], inr (error_payload
                  (VStr (lit "All questions must be attempted before submission")))).
Proof.
  split; [vm_compute; reflexivity|].
  apply (submit_quiz_blank_answer sample_runtime (lit "http://localhost:5046") []
           (server_ok VNone)).
  - vm_compute; reflexivity.
  - right. vm_compute. apply list_elem_of_further, list_elem_of_here.
Defined.

(** A note that yields three concepts, and a server that is down. *)
Example process_success :
  (run (server_ok (VDict {[ lit "concepts_generated" := VInt 3 ]}))
       (_process sample_runtime (lit "http://localhost:5046") [] cfg_state
          (Some (lit "Biology" ++ SEP ++ lit "n1")))).2
  = inr (CHECK ++ lit " Generated 3 concepts.",
         <[ lit "last_note_id" := VStr (lit "n1") ]> cfg_state).
Proof. vm_compute; reflexivity. Qed.

Example process_failure :
  let cfg : dict := <[ lit "last_note_id" := VStr (lit "n0") ]> cfg_state in
  (run server_down
       (_process sample_runtime (lit "http://localhost:5046") [] cfg
          (Some (lit "Biology" ++ SEP ++ lit "n1")))).2
  = inr (CROSS ++ lit " 500 Server Error", cfg).
Proof. vm_compute; reflexivity. Qed.

(** ** The notes table *)

Section NotesTable.

Context (rt : runtime) (API_URL API_TOKEN : str) (sv : server).

(** [_refresh_notes] fills the table with (name, status). *)
Lemma refresh_notes_rows cfg sent notes :
  run sv (list_notes API_URL API_TOKEN) = (sent, inr notes) →
  ∃ upd, run sv (_refresh_notes rt API_URL API_TOKEN cfg)
         = (sent, inr (VList ((fun n : note => VList [n.1.2; n.2]) <$> notes), upd)).
Proof.
  intros Hrun. unfold _refresh_notes, run in *.
  rewrite run_from_then, Hrun. by eexists.
Qed.

(** After a delete that succeeded, [_delete_note] fills it with
    (id, name, status). *)
Lemma delete_note_rows cfg sel c nid sent out sent' notes :
  _extract_id_from_display sel = Some (c :: nid) →
  run sv (delete_note rt API_URL API_TOKEN (c :: nid)) = (sent, inr (true, out)) →
  run_from sv sent (list_notes API_URL API_TOKEN) = (sent', inr notes) →
  ∃ msg upd, run sv (_delete_note rt API_URL API_TOKEN cfg sel)
             = (sent', inr (msg,
                            VList ((fun n : note => VList [n.1.1; n.1.2; n.2])
                                     <$> notes),
                            upd)).
Proof.
  intros Hsel Hdel Hlist. unfold _delete_note, run in *. rewrite Hsel.
  rewrite run_from_then, Hdel. cbn [negb].
  rewrite run_from_then, Hlist. by eexists _, _.
Qed.

End NotesTable.

(** C8 fails on the code: after a delete the table gets three cells a row,
    the id first, where the refresh gives (name, status). *)
Theorem delete_note_rows_carry_id :
  let url := lit "http://localhost:5046" in
  let sel := Some (lit "Old note" ++ SEP ++ lit "n0") in
  (run one_note_server (_refresh_notes sample_runtime url [] cfg_state)).2
  = inr (VList [VList [VStr (lit "Photosynthesis"); VStr (lit "uploaded")]],
         {| upd_choices := Some [lit "Photosynthesis" ++ SEP ++ lit "n1"];
            upd_value := Some (VStr (lit "Photosynthesis" ++ SEP ++ lit "n1"));
            upd_interactive := None |})
  ∧ (run one_note_server (_delete_note sample_runtime url [] cfg_state sel)).2
    = inr (CHECK ++ lit " Note deleted.",
           VList [VList [VStr (lit "n1"); VStr (lit "Photosynthesis");
                         VStr (lit "uploaded")]],
           {| upd_choices := Some [lit "Photosynthesis" ++ SEP ++ lit "n1"];
              upd_value := Some VNone;
              upd_interactive := None |}).
Proof. split; vm_compute; reflexivity. Qed.

(** ** Creating a quiz *)

Section CreateQuiz.

Context (rt : runtime) (API_URL API_TOKEN : str).

(** When the end of [_create_quiz] returns, it returns three outputs:
    the payload, the answer table and the session state with the quiz id. *)
Lemma quiz_created_three cfg out outs :
  quiz_created cfg out = inr outs →
  ∃ rows qid,
    py_subscript out (lit "id") = inr qid
    ∧ outs = [OVal out; OUpdate (value_update rows);
              OVal (VDict (<[ lit "last_quiz_id" := qid ]> cfg))].
Proof.
  unfold quiz_created. intros H.
  apply result_then_inr in H as (qid & Hqid & H).
  apply result_then_inr in H as (qs & _ & H).
  apply result_then_inr in H as (qs' & _ & H).
  apply result_then_inr in H as (rows & _ & H).
  injection H as <-. by eexists _, _.
Qed.

End CreateQuiz.

(** The three paths of [_create_quiz] on concrete runs. *)
Example create_quiz_no_selection :
  run server_down
      (_create_quiz sample_runtime (lit "http://localhost:5046") [] cfg_state
         (Some []) (VInt 5) (VInt 10) (VStr (lit "mixed")))
  = ([], inr [OVal (error_payload (VStr (lit "Select at least one note.")));
              OUpdate (value_update [])]).
Proof. reflexivity. Qed.

Example create_quiz_api_failure :
  (run server_down
       (_create_quiz sample_runtime (lit "http://localhost:5046") [] cfg_state
          (Some [lit "Biology" ++ SEP ++ lit "n1"])
          (VInt 5) (VInt 10) (VStr (lit "mixed")))).2
  = inr [OVal (error_payload (VStr (CROSS ++ lit " 500 Server Error")));
         OUpdate (value_update [])].
Proof. vm_compute; reflexivity. Qed.

Example create_quiz_success :
  let out := VDict (<[ lit "id" := VStr (lit "q1") ]>
                    {[ lit "questions" :=
                         VList [VDict {[ lit "question" := VStr (lit "Why?") ]}] ]}) in
  (run (server_ok out)
       (_create_quiz sample_runtime (lit "http://localhost:5046") [] cfg_state
          (Some [lit "Biology" ++ SEP ++ lit "n1"])
          (VInt 5) (VInt 10) (VStr (lit "mixed")))).2
  = inr [OVal out;
         OUpdate (value_update [VList [VStr (lit "Why?"); VStr []]]);
         OVal (VDict (<[ lit "last_quiz_id" := VStr (lit "q1") ]> cfg_state))].
Proof. vm_compute; reflexivity. Qed.

(** ** Concept rows *)

Section ConceptRows.

Context (rt : runtime).



(** The count of hundredths is determined by the two conditions. *)
Lemma rounds_half_even_unique (num den n n' : Z) :
  (0 < den)%Z →
  rounds_half_even num den n → rounds_half_even num den n' → n = n'.
Proof.
  intros Hden [Hn Hn_tie] [Hn' Hn'_tie].
  assert (Hnear : (n' = n ∨ n' = n + 1 ∨ n' = n - 1)%Z) by nia.
  destruct Hnear as [->|[->| ->]]; [done| |].
  - assert (Z.even n = true) by (apply Hn_tie; nia).
    assert (Z.even (n + 1) = true) as Hodd by (apply Hn'_tie; nia).
    rewrite Z.even_add in Hodd. destruct (Z.even n); done.
  - assert (Z.even n = true) by (apply Hn_tie; nia).
    assert (Z.even (n - 1) = true) as Hodd by (apply Hn'_tie; nia).
    rewrite Z.even_sub in Hodd. destruct (Z.even n); done.
Qed.



Lemma cell_blank_when_falsy (s : dict) (key : str) dflt
    (k : pyval → result pyval) :
  truthy (dict_get_or s key dflt) = false →
  (let* x := py_get (VDict s) key dflt in
   if negb (truthy x) then pure (VStr []) else k x)%result
  = inr (VStr []).
Proof. intros H. unfold result_then. simpl. by rewrite H. Qed.

Lemma stability_missing (s : dict) :
  s !! lit "stability" = None → stability_cell rt (VDict s) = inr (VStr []).
Proof.
  intros H. apply cell_blank_when_falsy. unfold dict_get_or. by rewrite H.
Qed.

Lemma difficulty_missing (s : dict) :
  s !! lit "difficulty" = None → difficulty_cell rt (VDict s) = inr (VStr []).
Proof.
  intros H. apply cell_blank_when_falsy. unfold dict_get_or. by rewrite H.
Qed.

Lemma date_missing (key : str) (s : dict) :
  s !! key = None → date_cell rt key (VDict s) = inr (VStr []).
Proof.
  intros H. apply cell_blank_when_falsy. unfold dict_get_or. by rewrite H.
Qed.

(** The row of a concept whose [srs_info] is the dict [s], from its cells. *)
Lemma concept_row_cells (c s : dict) :
  dict_get_or c (lit "srs_info") (VDict ∅) = VDict s →
  concept_row rt (VDict c)
  = (let* stability := stability_cell rt (VDict s) in
     let* difficulty := difficulty_cell rt (VDict s) in
     let* due := date_cell rt (lit "due") (VDict s) in
     let* last_review := date_cell rt (lit "last_review") (VDict s) in
     pure [dict_get_or c (lit "name") (VStr []);
           dict_get_or c (lit "content") (VStr []);
           stability; difficulty; due; last_review])%result.
Proof. intros Hs. unfold concept_row. cbn [py_get]. by rewrite Hs. Qed.

(** For a concept whose [srs_info] is absent or a dict, each absent
    sub-field gives an empty cell; with all four absent the row is built
    with four empty cells; and when building the row raises, it is a
    sub-field that is present whose conversion raised. *)
Lemma concept_row_missing_fields (c s : dict) :
  dict_get_or c (lit "srs_info") (VDict ∅) = VDict s →
  (s !! lit "stability" = None → stability_cell rt (VDict s) = inr (VStr []))
  ∧ (s !! lit "difficulty" = None → difficulty_cell rt (VDict s) = inr (VStr []))
  ∧ (s !! lit "due" = None → date_cell rt (lit "due") (VDict s) = inr (VStr []))
  ∧ (s !! lit "last_review" = None →
     date_cell rt (lit "last_review") (VDict s) = inr (VStr []))
  ∧ (s !! lit "stability" = None → s !! lit "difficulty" = None →
     s !! lit "due" = None → s !! lit "last_review" = None →
     concept_row rt (VDict c)
     = inr [dict_get_or c (lit "name") (VStr []);
            dict_get_or c (lit "content") (VStr []);
            VStr []; VStr []; VStr []; VStr []])
  ∧ (∀ e, concept_row rt (VDict c) = inl e →
       (is_Some (s !! lit "stability") ∧ stability_cell rt (VDict s) = inl e)
       ∨ (is_Some (s !! lit "difficulty") ∧ difficulty_cell rt (VDict s) = inl e)
       ∨ (is_Some (s !! lit "due") ∧ date_cell rt (lit "due") (VDict s) = inl e)
       ∨ (is_Some (s !! lit "last_review")
          ∧ date_cell rt (lit "last_review") (VDict s) = inl e)).
Proof.
  intros Hs.
  split; [apply stability_missing|].
  split; [apply difficulty_missing|].
  split; [apply date_missing|].
  split; [apply date_missing|].
  rewrite (concept_row_cells c s Hs). split.
  - intros H1 H2 H3 H4.
    by rewrite stability_missing, difficulty_missing, !date_missing.
  - intros e He.
    assert (Hpresent : ∀ (key : str) (cell : result pyval),
               (s !! key = None → cell = inr (VStr [])) →
               cell = inl e → is_Some (s !! key) ∧ cell = inl e).
    { intros key cell Hmiss Hcell. split; [|done].
      destruct (s !! key) eqn:E; [by eexists|].
      rewrite Hmiss in Hcell; done. }
    apply result_then_inl in He as [He | (v1 & _ & He)].
    { left. by apply Hpresent; [apply stability_missing|]. }
    apply result_then_inl in He as [He | (v2 & _ & He)].
    { right; left. by apply Hpresent; [apply difficulty_missing|]. }
    apply result_then_inl in He as [He | (v3 & _ & He)].
    { right; right; left. by apply Hpresent; [apply date_missing|]. }
    apply result_then_inl in He as [He | (v4 & _ & He)].
    { right; right; right. by apply Hpresent; [apply date_missing|]. }
    done.
Qed.

(** C6 fails on the code: [c.get("srs_info", {})] gives the default only
    when the key is absent.  When the server sends [srs_info] as null, or
    as anything else that is not a dict, [s.get] raises AttributeError
    and the handler with it: no row is built, for this concept or for
    the others of the answer.  The same concept without [srs_info], or
    with an [srs_info] whose four sub-fields are null, gets its row with
    four empty cells. *)
Theorem concept_row_null_srs_info :
  let c : dict := ODict [(lit "name", VStr (lit "X")); (lit "srs_info", VNone)] in
  let ok : pyval := VDict (ODict [(lit "name", VStr (lit "Y"))]) in
  concept_row rt (VDict c) = inl AttributeError
  ∧ (run (server_ok (VList [ok; VDict c]))
         (_load_concepts rt (lit "http://localhost:5046") [] cfg_state
            (Some (lit "Biology" ++ SEP ++ lit "n1")))).2
    = inl AttributeError
  ∧ (∀ (d : dict) (v : pyval),
       match v with
       | VDict _ => True
       | _ => concept_row rt (VDict (<[ lit "srs_info" := v ]> d))
              = inl AttributeError
       end)
  ∧ concept_row rt (VDict (ODict [(lit "name", VStr (lit "X"))]))
    = inr [VStr (lit "X"); VStr []; VStr []; VStr []; VStr []; VStr []]
  ∧ concept_row rt
      (VDict (ODict [(lit "name", VStr (lit "X"));
                     (lit "srs_info",
                      VDict (ODict [(lit "stability", VNone);
                                    (lit "difficulty", VNone);
                                    (lit "due", VNone);
                                    (lit "last_review", VNone)]))]))
    = inr [VStr (lit "X"); VStr []; VStr []; VStr []; VStr []; VStr []].
Proof.
  cbv zeta. split; [reflexivity|]. split; [vm_compute; reflexivity|].
  split; [|split; vm_compute; reflexivity].
  intros d v. unfold concept_row, result_then. cbn [py_get]. unfold dict_get_or.
  rewrite odict_lookup_insert_eq. by destruct v.
Qed.

(** C10: a stability or a difficulty of 0, sent as an integer or as a
    float, is taken for absent: the cell is empty, where the conversion
    itself would have given the number 0. *)
Theorem zero_renders_blank (s : dict) (z : pyval) :
  z = VInt 0 ∨ z = VFloat (S754_zero false) ∨ z = VFloat (S754_zero true) →
  stability_cell rt (VDict (<[ lit "stability" := z ]> s)) = inr (VStr [])
  ∧ difficulty_cell rt (VDict (<[ lit "difficulty" := z ]> s)) = inr (VStr [])
  ∧ (let* f := py_float rt (VInt 0) in
     let* r := py_round2 f in
     pure (VFloat r))%result = inr (VFloat (f64 0 0)).
Proof.
  intros Hz.
  assert (Hfalsy : truthy z = false) by by destruct Hz as [->|[->| ->]].
  split; [|split; [|reflexivity]].
  - apply cell_blank_when_falsy. unfold dict_get_or.
    by rewrite odict_lookup_insert_eq.
  - apply cell_blank_when_falsy. unfold dict_get_or.
    by rewrite odict_lookup_insert_eq.
Qed.

End ConceptRows.

Lemma concept_row_missing_fields_witness :
  let s : dict := {[ lit "stability" := VFloat (f64 5 (-1)) ]} in
  let c : dict := <[ lit "name" := VStr (lit "Chlorophyll") ]>
                    {[ lit "srs_info" := VDict s ]} in
  dict_get_or c (lit "srs_info") (VDict ∅) = VDict s
  ∧ difficulty_cell sample_runtime (VDict s) = inr (VStr [])
  ∧ concept_row sample_runtime (VDict c)
    = inr [VStr (lit "Chlorophyll"); VStr []; VFloat (f64 5 (-1));
           VStr []; VStr []; VStr []].
Proof.
  split; [vm_compute; reflexivity|].
  split; [|vm_compute; reflexivity].
  apply (concept_row_missing_fields sample_runtime
           (<[ lit "name" := VStr (lit "Chlorophyll") ]>
              {[ lit "srs_info" := VDict {[ lit "stability" := VFloat (f64 5 (-1)) ]} ]})
           {[ lit "stability" := VFloat (f64 5 (-1)) ]});
    vm_compute; reflexivity.
Defined.


Lemma zero_renders_blank_witness :
  stability_cell sample_runtime
    (VDict (<[ lit "stability" := VInt 0 ]> {[ lit "due" := VStr [] ]}))
  = inr (VStr []).
Proof.
  apply (zero_renders_blank sample_runtime {[ lit "due" := VStr [] ]} (VInt 0)).
  left; reflexivity.
Defined.

(** * More of the client *)

#[local] Arguments lit _ : simpl never.

(** ** One request *)

Section RequestFacts.

Context {B : Type} (sv : server).

Lemma request_unfold method url token kw :
  _request method url token kw = Send (request_of method url token kw) lift.
Proof. unfold _request, request_of. by rewrite (right_id_L ∅ (∪)). Qed.

(** A wrapper's request, status check and [json()], then the rest. *)
Lemma run_fetch_then method url token kw (f : pyval → prog B) sent :
  run_from sv sent
    (prog_then (_request method url token kw) (fun r =>
     prog_then (raise_for_status r) (fun _ =>
     prog_then (json r) f)))
  = let rq := request_of method url token kw in
    match answer_json sv sent rq with
    | inl e => (sent ++ [rq], inl e)
    | inr body => run_from sv (sent ++ [rq]) (f body)
    end.
Proof.
  rewrite request_unfold. unfold answer_json. cbn.
  destruct (sv sent (request_of method url token kw)) as [e|r]; [done|].
  cbn. unfold raise_for_status, json.
  destruct (rsp_status_error r); [done|]. cbn.
  by destruct (rsp_json r).
Qed.

End RequestFacts.

Section FetchFacts.

Context (sv : server).

(** The same, for a wrapper that ends in [return r.json()]. *)
Lemma run_fetch method url token kw sent :
  run_from sv sent
    (prog_then (_request method url token kw) (fun r =>
     prog_then (raise_for_status r) (fun _ => json r)))
  = let rq := request_of method url token kw in
    (sent ++ [rq], answer_json sv sent rq).
Proof.
  rewrite request_unfold. unfold answer_json. cbn.
  destruct (sv sent (request_of method url token kw)) as [e|r]; [done|].
  cbn. unfold raise_for_status, json.
  destruct (rsp_status_error r); [done|]. cbn.
  by destruct (rsp_json r).
Qed.

End FetchFacts.

(** ** What every request looks like *)

Section EachRequest.

Context {A B : Type} (P : http_request → Prop).

Lemma each_request_then (p : prog A) (f : A → prog B) :
  each_request P p → (∀ a, each_request P (f a)) →
  each_request P (prog_then p f).
Proof.
  intros Hp Hf. induction Hp as [a|e|rq k HP _ IH]; cbn.
  - apply Hf.
  - constructor.
  - constructor; [done|]. exact IH.
Qed.

Lemma each_request_try (p : prog A) (h : exn → prog A) :
  each_request P p → (∀ e, each_request P (h e)) →
  each_request P (try_except p h).
Proof.
  intros Hp Hh. induction Hp as [a|e|rq k HP _ IH]; cbn.
  - constructor.
  - apply Hh.
  - constructor; [done|]. exact IH.
Qed.

Lemma each_request_lift (r : result A) : each_request P (lift r).
Proof. destruct r; constructor. Qed.

Lemma each_request_run (sv : server) (p : prog A) sent :
  each_request P p → Forall P sent → Forall P (run_from sv sent p).1.
Proof.
  intros Hp. revert sent. induction Hp as [a|e|rq k HP _ IH]; intros sent Hs; cbn.
  - done.
  - done.
  - apply IH. apply Forall_app. split; [done|]. by constructor.
Qed.

End EachRequest.

Lemma each_request_send_request P method url token kw :
  P (request_of method url token kw) →
  each_request P (_request method url token kw).
Proof.
  intros HP. rewrite request_unfold. constructor; [done|].
  intros r. apply each_request_lift.
Qed.

(** Walks a handler down to its requests. *)
Ltac each_request_step :=
  first
    [ apply each_request_ret
    | apply each_request_raise
    | apply each_request_lift
    | apply each_request_send_request
    | apply each_request_then; [|intros]
    | apply each_request_try; [|intros]
    | progress unfold raise_for_status, json
    | match goal with
      | |- each_request _ (match ?x with _ => _ end) => destruct x
      | |- each_request _ (if ?b then _ else _) => destruct b
      end ].

Ltac each_request_walk := cbv zeta; repeat each_request_step.

Section RequestInvariants.

Context (rt : runtime) (API_URL API_TOKEN : str).

Lemma request_to_configured_api method path kw :
  to_configured_api API_URL API_TOKEN
    (request_of method (API_URL ++ path) API_TOKEN kw).
Proof. split; [apply starts_with_app | done]. Qed.

Local Ltac to_api :=
  each_request_walk; rewrite <- ?app_assoc; apply request_to_configured_api.

(** X5: every request of every handler goes to the configured API and carries
    the bearer token as its only header, or no header without a token. *)
Theorem requests_go_to_configured_api (sv : server) (cfg : dict)
    (sel : option str) (sels : option (list str)) (df : dataframe)
    (a b c : pyval) :
  let P := to_configured_api API_URL API_TOKEN in
  Forall P (run sv (_refresh_notes rt API_URL API_TOKEN cfg)).1
  ∧ Forall P (run sv (_show_content rt API_URL API_TOKEN cfg sel)).1
  ∧ Forall P (run sv (_process rt API_URL API_TOKEN cfg sel)).1
  ∧ Forall P (run sv (_delete_note rt API_URL API_TOKEN cfg sel)).1
  ∧ Forall P (run sv (_upload_txt rt API_URL API_TOKEN cfg a b)).1
  ∧ Forall P (run sv (_refresh_concept rt API_URL API_TOKEN cfg)).1
  ∧ Forall P (run sv (_load_concepts rt API_URL API_TOKEN cfg sel)).1
  ∧ Forall P (run sv (_refresh_quiz_notes rt API_URL API_TOKEN cfg)).1
  ∧ Forall P (run sv (_refresh_active_quizzes rt API_URL API_TOKEN cfg)).1
  ∧ Forall P (run sv (_refresh_completed_quizzes rt API_URL API_TOKEN cfg)).1
  ∧ Forall P (run sv (_create_quiz rt API_URL API_TOKEN cfg sels a b c)).1
  ∧ Forall P (run sv (_load_active_quiz rt API_URL API_TOKEN cfg sel)).1
  ∧ Forall P (run sv (_load_completed_quiz rt API_URL API_TOKEN cfg sel)).1
  ∧ Forall P (run sv (_submit_quiz rt API_URL API_TOKEN cfg df)).1.
Proof.
  intros P. repeat split; (apply each_request_run; [|constructor]).
  - unfold _refresh_notes, list_notes. to_api.
  - unfold _show_content, get_note_content. to_api.
  - unfold _process, process_note. to_api.
  - unfold _delete_note, delete_note, list_notes. to_api.
  - unfold _upload_txt, upload_text. to_api.
  - unfold _refresh_concept, list_notes. to_api.
  - unfold _load_concepts, list_concepts. to_api.
  - unfold _refresh_quiz_notes, list_notes. to_api.
  - unfold _refresh_active_quizzes, refresh_quizzes, list_quizzes. to_api.
  - unfold _refresh_completed_quizzes, refresh_quizzes, list_quizzes. to_api.
  - unfold _create_quiz, create_quiz. to_api.
  - unfold _load_active_quiz, get_quiz_by_id. to_api.
  - unfold _load_completed_quiz, get_quiz_by_id. to_api.
  - unfold _submit_quiz, submit_quiz. to_api.
Qed.

End RequestInvariants.

(** ** Time-outs *)

Section Timeouts.

Context (rt : runtime) (API_URL API_TOKEN : str).

Local Ltac timeouts := each_request_walk; (done || (split; done)).

(** X6: only the processing request has a time-out, of 120; every other
    request of every handler has none. *)
Theorem only_processing_has_timeout (sv : server) (cfg : dict)
    (sel : option str) (sels : option (list str)) (df : dataframe)
    (a b c : pyval) :
  let slow := fun rq => timeout_of rq = Some 120%Z ∧ rq_method rq = POST in
  let plain := fun rq => timeout_of rq = None in
  Forall slow (run sv (_process rt API_URL API_TOKEN cfg sel)).1
  ∧ Forall plain (run sv (_refresh_notes rt API_URL API_TOKEN cfg)).1
  ∧ Forall plain (run sv (_show_content rt API_URL API_TOKEN cfg sel)).1
  ∧ Forall plain (run sv (_delete_note rt API_URL API_TOKEN cfg sel)).1
  ∧ Forall plain (run sv (_upload_txt rt API_URL API_TOKEN cfg a b)).1
  ∧ Forall plain (run sv (_refresh_concept rt API_URL API_TOKEN cfg)).1
  ∧ Forall plain (run sv (_load_concepts rt API_URL API_TOKEN cfg sel)).1
  ∧ Forall plain (run sv (_refresh_quiz_notes rt API_URL API_TOKEN cfg)).1
  ∧ Forall plain (run sv (_refresh_active_quizzes rt API_URL API_TOKEN cfg)).1
  ∧ Forall plain (run sv (_refresh_completed_quizzes rt API_URL API_TOKEN cfg)).1
  ∧ Forall plain (run sv (_create_quiz rt API_URL API_TOKEN cfg sels a b c)).1
  ∧ Forall plain (run sv (_load_active_quiz rt API_URL API_TOKEN cfg sel)).1
  ∧ Forall plain (run sv (_load_completed_quiz rt API_URL API_TOKEN cfg sel)).1
  ∧ Forall plain (run sv (_submit_quiz rt API_URL API_TOKEN cfg df)).1.
Proof.
  intros slow plain. repeat split; (apply each_request_run; [|constructor]).
  - unfold _process, process_note. timeouts.
  - unfold _refresh_notes, list_notes. timeouts.
  - unfold _show_content, get_note_content. timeouts.
  - unfold _delete_note, delete_note, list_notes. timeouts.
  - unfold _upload_txt, upload_text. timeouts.
  - unfold _refresh_concept, list_notes. timeouts.
  - unfold _load_concepts, list_concepts. timeouts.
  - unfold _refresh_quiz_notes, list_notes. timeouts.
  - unfold _refresh_active_quizzes, refresh_quizzes, list_quizzes. timeouts.
  - unfold _refresh_completed_quizzes, refresh_quizzes, list_quizzes. timeouts.
  - unfold _create_quiz, create_quiz. timeouts.
  - unfold _load_active_quiz, get_quiz_by_id. timeouts.
  - unfold _load_completed_quiz, get_quiz_by_id. timeouts.
  - unfold _submit_quiz, submit_quiz. timeouts.
Qed.

End Timeouts.

(** ** The wrappers, one request each *)

Section WrapperContracts.

Context (rt : runtime) (sv : server).

Lemma run_create_quiz url tok ids cl ql mode sent :
  let rq := request_of POST (url ++ lit "/quizzes") tok
              {| kw_json := Some (VDict (ODict [(lit "note_ids", VList (VStr <$> ids));
                                                (lit "concept_limit", cl);
                                                (lit "question_limit", ql);
                                                (lit "mode", mode)]));
                 kw_timeout := None |} in
  run_from sv sent (create_quiz rt url tok ids cl ql mode)
  = (sent ++ [rq],
     inr (match answer_json sv sent rq with
          | inr body => (true, body)
          | inl e => failed rt e
          end)).
Proof.
  cbv zeta. unfold create_quiz. rewrite run_from_try, run_fetch_then. cbv zeta.
  by destruct (answer_json sv sent _).
Qed.

Lemma run_submit_quiz url tok qid answers sent :
  let rq := submit_request rt url tok qid answers in
  run_from sv sent (submit_quiz rt url tok qid answers)
  = (sent ++ [rq],
     inr (match answer_json sv sent rq with
          | inr body => (true, body)
          | inl e => failed rt e
          end)).
Proof.
  cbv zeta. unfold submit_quiz, submit_request.
  rewrite run_from_try, run_fetch_then. cbv zeta.
  by destruct (answer_json sv sent _).
Qed.

Lemma run_delete_note url tok nid sent :
  let rq := request_of DELETE (url ++ lit "/notes/" ++ nid) tok no_kwargs in
  run_from sv sent (delete_note rt url tok nid)
  = (sent ++ [rq],
     inr (match answer_json sv sent rq with
          | inr body => (true, body)
          | inl e => failed rt e
          end)).
Proof.
  cbv zeta. unfold delete_note. rewrite run_from_try, run_fetch_then. cbv zeta.
  by destruct (answer_json sv sent _).
Qed.

(** X7: [create_quiz], [submit_quiz] and [delete_note] send one request and
    never raise: they return [(True, body)] when the server answers 2xx
    with a JSON body, and [(False, "❌ " + text)] for any exception. *)
Theorem json_wrappers_contract url tok ids cl ql mode qid answers nid sent :
  (let rq := request_of POST (url ++ lit "/quizzes") tok
               {| kw_json := Some (VDict (ODict [(lit "note_ids", VList (VStr <$> ids));
                                                 (lit "concept_limit", cl);
                                                 (lit "question_limit", ql);
                                                 (lit "mode", mode)]));
                  kw_timeout := None |} in
   run_from sv sent (create_quiz rt url tok ids cl ql mode)
   = (sent ++ [rq],
      inr (match answer_json sv sent rq with
           | inr body => (true, body)
           | inl e => failed rt e
           end)))
  ∧ (let rq := request_of POST
                 (url ++ lit "/quizzes/" ++ py_str rt qid ++ lit "/submit") tok
                 {| kw_json := Some (VDict {[ lit "responses" :=
                                                VList (VStr <$> answers) ]});
                    kw_timeout := None |} in
     run_from sv sent (submit_quiz rt url tok qid answers)
     = (sent ++ [rq],
        inr (match answer_json sv sent rq with
             | inr body => (true, body)
             | inl e => failed rt e
             end)))
  ∧ (let rq := request_of DELETE (url ++ lit "/notes/" ++ nid) tok no_kwargs in
     run_from sv sent (delete_note rt url tok nid)
     = (sent ++ [rq],
        inr (match answer_json sv sent rq with
             | inr body => (true, body)
             | inl e => failed rt e
             end))).
Proof.
  split; [apply run_create_quiz|].
  split; [apply run_submit_quiz | apply run_delete_note].
Qed.

(** X8: [process_note] sends one POST and never raises: it reports the count
    when the server answers 2xx with a JSON object that has
    [concepts_generated], and fails with the exception's text otherwise. *)
Theorem process_note_contract url tok nid sent :
  let rq := request_of POST (url ++ lit "/notes/" ++ nid ++ lit "/process") tok
              {| kw_json := None; kw_timeout := Some 120%Z |} in
  run_from sv sent (process_note rt url tok nid)
  = (sent ++ [rq],
     inr (match (let* body := answer_json sv sent rq in
                 py_subscript body (lit "concepts_generated"))%result with
          | inr n => (true, CHECK ++ lit " Generated " ++ py_str rt n
                              ++ lit " concepts.")
          | inl e => (false, CROSS ++ lit " " ++ exn_text rt e)
          end)).
Proof.
  cbv zeta. unfold process_note. rewrite run_from_try, run_fetch_then. cbv zeta.
  destruct (answer_json sv sent _) as [e|body]; [done|].
  rewrite run_from_then, run_from_lift. unfold result_then. cbn.
  by destruct (py_subscript body (lit "concepts_generated")).
Qed.

(** [list_notes] sends one GET and raises what the request, the status
    check, the decoding or the shape of the body raises. *)
Lemma run_list_notes url tok sent :
  let rq := request_of GET (url ++ lit "/notes") tok no_kwargs in
  run_from sv sent (list_notes url tok)
  = (sent ++ [rq], (let* body := answer_json sv sent rq in notes_of body)%result).
Proof.
  cbv zeta. unfold list_notes. rewrite run_fetch_then. cbv zeta.
  unfold result_then. destruct (answer_json sv sent _) as [e|body]; [done|].
  cbn. rewrite run_from_then, run_from_lift. unfold notes_of, result_then.
  destruct (py_iter body) as [e|ns]; [done|]. cbn. by rewrite run_from_lift.
Qed.

End WrapperContracts.

(** ** Decoding, further *)

Section DecodeFacts.

Context (rt : runtime).


Lemma extract_ids_map (l : list str) :
  _extract_ids_from_display_list (Some l)
  = (fun s => default [] (_extract_id_from_display (Some s))) <$> l.
Proof.
  destruct l as [|s0 l0]; [done|].
  unfold _extract_ids_from_display_list.
  apply list_fmap_ext. intros _ s _.
  destruct s as [|c s]; [done|]. unfold _extract_id_from_display.
  destruct (contains SEP (c :: s)); [|done].
  by rewrite last_split_SEP.
Qed.

(** X2: the list decoder decodes each selected label as the single decoder
    does (an empty text stays empty), in order; no selection gives no id. *)
Theorem extract_ids_elementwise (l : list str) :
  _extract_ids_from_display_list (Some l)
  = (fun s => default [] (_extract_id_from_display (Some s))) <$> l
  ∧ _extract_ids_from_display_list None = [].
Proof. split; [apply extract_ids_map | done]. Qed.

(** X3: the labels of a note list decode back to the ids of the notes, in
    order, when every note meets the conditions of the single round trip. *)
Theorem note_choices_roundtrip (notes : list (str * str * pyval)) :
  Forall (fun n => contains SEP n.1.1 = false
                   ∧ ends_with SEP_HEAD (last_segment n.1.2) = false) notes →
  _extract_ids_from_display_list
    (Some (_format_note_choices rt
             ((fun n => (VStr n.1.1, VStr n.1.2, n.2)) <$> notes)))
  = (fun n => n.1.1) <$> notes.
Proof.
  intros Hall. rewrite extract_ids_map.
  unfold _format_note_choices. rewrite <- !list_fmap_compose.
  apply Forall_fmap_ext_1. eapply Forall_impl; [exact Hall|].
  intros [[nid name] status] [Hnid Hname].
  unfold compose, _format_note_choice. cbn [fst snd py_str] in *.
  by rewrite extract_label, last_segment_label.
Qed.

(** X4: [_format_quiz_choice] raises in one case only, a [TypeError]: the name
    is absent or falsy and the id can not be sliced (it is neither text
    nor list). *)
Theorem format_quiz_choice_raises (q : dict) (e : exn) :
  let qid := dict_get_or q (lit "id") (VStr []) in
  _format_quiz_choice rt q = inl e
  ↔ e = TypeError
    ∧ truthy (dict_get q (lit "name")) = false
    ∧ (∀ s, qid ≠ VStr s) ∧ (∀ l, qid ≠ VList l).
Proof.
  cbv zeta. unfold _format_quiz_choice, py_or, result_then.
  generalize (dict_get_or q (lit "id") (VStr [])). intros qid.
  destruct (truthy (dict_get q (lit "name"))); cbn.
  { split; [done | by intros (_ & ? & _)]. }
  destruct qid as [| | | |s|l|]; cbn.
  5: { split; [done | intros (_ & _ & Hs & _); by destruct (Hs s)]. }
  5: { split; [done | intros (_ & _ & _ & Hl); by destruct (Hl l)]. }
  all: split; [intros [= <-]; by repeat split | by intros (-> & _)].
Qed.

End DecodeFacts.


Lemma note_choices_roundtrip_witness :
  _extract_ids_from_display_list
    (Some (_format_note_choices sample_runtime
             ((fun n : str * str * pyval => (VStr n.1.1, VStr n.1.2, n.2))
                <$> [(lit "n1", lit "Biology", VNone);
                     (lit "n2", lit "Maps" ++ SEP ++ lit "Europe", VNone)])))
  = [lit "n1"; lit "n2"].
Proof.
  apply (note_choices_roundtrip sample_runtime
           [(lit "n1", lit "Biology", VNone);
            (lit "n2", lit "Maps" ++ SEP ++ lit "Europe", VNone)]).
  repeat constructor.
Defined.

(** ** Comprehensions *)

Section MapM.

Context {X Y : Type} (f : X → result Y).

Lemma mapM_result_cons x l :
  mapM f (x :: l)
  = match f x with
    | inl e => inl e
    | inr y => match mapM f l with
               | inl e => inl e
               | inr ys => inr (y :: ys)
               end
    end.
Proof. cbn. destruct (f x); [done|]. cbn. by destruct (mapM f l). Qed.

Lemma mapM_result_inr l ys :
  mapM f l = inr ys ↔ Forall2 (fun x y => f x = inr y) l ys.
Proof.
  revert ys. induction l as [|x l IH]; intros ys.
  - split; [intros [= <-]; constructor | by inversion 1].
  - rewrite mapM_result_cons. split.
    + destruct (f x) as [e|y] eqn:Hx; [done|].
      destruct (mapM f l) as [e|ys'] eqn:Hl; [done|].
      intros [= <-]. constructor; [done|]. by apply IH.
    + inversion 1 as [|? y ? ys' Hx Hl]; subst.
      rewrite Hx. apply IH in Hl. by rewrite Hl.
Qed.

Lemma mapM_result_fmap (g : X → Y) l :
  Forall (fun x => f x = inr (g x)) l → mapM f l = inr (g <$> l).
Proof.
  intros H. apply mapM_result_inr. induction H; constructor; done.
Qed.


End MapM.

(** ** Submitting *)

Section Submit.

Context (rt : runtime) (API_URL API_TOKEN : str).

Lemma all_attempted_filled (answers : list str) :
  [] ∉ answers → all_attempted answers = true.
Proof.
  induction answers as [|a answers IH]; intros Hnot; [done|].
  change (all_attempted (a :: answers))
    with (truthy (VStr a) && all_attempted answers).
  rewrite IH.
  - destruct a; [|done]. exfalso. apply Hnot. constructor.
  - intros Hin. apply Hnot. by constructor.
Qed.

(** X9: with a quiz id in the session state and every answer filled in,
    [_submit_quiz] sends exactly one POST to the quiz's submit URL with
    the trimmed answers in table order, and never raises: it returns the
    server's payload as it is, or an error payload when the call failed. *)
Theorem submit_quiz_posts_answers (sv : server) (cfg : dict) (df : dataframe) :
  let qid := dict_get cfg (lit "last_quiz_id") in
  let answers := answers_of rt df in
  truthy qid = true → answers ≠ [] → [] ∉ answers →
  run sv (_submit_quiz rt API_URL API_TOKEN cfg df)
  = ([submit_request rt API_URL API_TOKEN qid answers],
     inr (match answer_json sv [] (submit_request rt API_URL API_TOKEN qid answers) with
          | inr body => body
          | inl e => error_payload (VStr (CROSS ++ lit " " ++ exn_text rt e))
          end)).
Proof.
  intros qid answers Hq Hne Hfilled. unfold _submit_quiz, run.
  fold qid answers. rewrite Hq, (all_attempted_filled _ Hfilled).
  destruct answers as [|a0 rest] eqn:Ha; [done|]. cbn [negb truthy fmap list_fmap orb].
  rewrite run_from_then, run_submit_quiz. cbv zeta.
  by destruct (answer_json sv [] _).
Qed.

End Submit.

Lemma submit_quiz_posts_answers_witness :
  let cfg : dict := <[ lit "last_quiz_id" := VStr (lit "q1") ]> cfg_state in
  let df := DfPandas {[ lit "answer" := [VStr (lit " Paris "); VStr (lit "Seine")] ]} in
  let sv := server_ok (VDict {[ lit "score" := VInt 2 ]}) in
  run sv (_submit_quiz sample_runtime (lit "http://api") (lit "tok") cfg df)
  = ([submit_request sample_runtime (lit "http://api") (lit "tok")
        (VStr (lit "q1")) [lit "Paris"; lit "Seine"]],
     inr (VDict {[ lit "score" := VInt 2 ]})).
Proof.
  refine (eq_trans
            (submit_quiz_posts_answers sample_runtime (lit "http://api") (lit "tok")
               (server_ok (VDict {[ lit "score" := VInt 2 ]}))
               (<[ lit "last_quiz_id" := VStr (lit "q1") ]> cfg_state)
               (DfPandas {[ lit "answer" := [VStr (lit " Paris ");
                                             VStr (lit "Seine")] ]})
               _ _ _) _).
  - vm_compute; reflexivity.
  - vm_compute; discriminate.
  - apply (bool_decide_unpack _). vm_compute. exact I.
  - vm_compute; reflexivity.
Defined.

(** A table that arrives as a dict is read key by key, in the order the
    keys were inserted: the answer is the second character of each key. *)
Example answers_of_dict_table :
  answers_of sample_runtime
    (DfValue (VDict (ODict [(lit "zb", VInt 1); (lit "ay", VInt 2)])))
  = [lit "b"; lit "y"].
Proof. vm_compute; reflexivity. Qed.

(** ** Runs of the other wrappers *)

Section MoreRuns.

Context (rt : runtime) (sv : server).

Lemma run_get_quiz_by_id url tok qid sent :
  let rq := request_of GET (url ++ lit "/quizzes/" ++ py_str rt qid) tok no_kwargs in
  run_from sv sent (get_quiz_by_id rt url tok qid)
  = (sent ++ [rq], answer_json sv sent rq).
Proof. apply run_fetch. Qed.

Lemma run_list_quizzes url tok sent :
  let rq := request_of GET (url ++ lit "/quizzes") tok no_kwargs in
  run_from sv sent (list_quizzes url tok) = (sent ++ [rq], answer_json sv sent rq).
Proof. apply run_fetch. Qed.


Lemma run_get_note_content url tok nid sent :
  let rq := request_of GET (url ++ lit "/notes/" ++ nid) tok no_kwargs in
  run_from sv sent (get_note_content url tok nid)
  = (sent ++ [rq],
     (let* body := answer_json sv sent rq in py_subscript body (lit "content"))%result).
Proof.
  cbv zeta. unfold get_note_content. rewrite run_fetch_then. cbv zeta.
  unfold result_then. destruct (answer_json sv sent _); [done|].
  by rewrite run_from_lift.
Qed.

(** A selected text that is not empty decodes to its last segment. *)
Lemma extract_id_nonempty (s : str) :
  s ≠ [] → _extract_id_from_display (Some s) = Some (last_segment s).
Proof.
  intros Hs. destruct s as [|c s]; [done|]. unfold _extract_id_from_display.
  destruct (contains SEP (c :: s)) eqn:E; [apply last_split_SEP|].
  rewrite last_segment_None; [done|].
  unfold contains in E. by destruct (find SEP (c :: s)).
Qed.

End MoreRuns.

(** ** Loading a quiz *)

Section LoadQuiz.

Context (rt : runtime) (API_URL API_TOKEN : str) (sv : server).

(** X11: selecting an active quiz fetches it by the decoded id and, for a quiz
    object with a list of question objects, records that id as
    [last_quiz_id], shows one row per question with an empty answer, and
    makes the table editable exactly when the status is "active". *)
Theorem load_active_quiz_loads (cfg : dict) (s : str) (d : dict) (qds : list dict) :
  s ≠ [] →
  let qid := last_segment s in
  let rq := quiz_request rt API_URL API_TOKEN (VStr qid) in
  answer_json sv [] rq = inr (VDict d) →
  dict_get_or d (lit "questions") (VList []) = VList (VDict <$> qds) →
  run sv (_load_active_quiz rt API_URL API_TOKEN cfg (Some s))
  = ([rq],
     inr ({| upd_choices := None;
             upd_value :=
               Some (VList ((fun qd : dict =>
                               VList [dict_get_or qd (lit "question") (VStr []);
                                      VStr []]) <$> qds));
             upd_interactive :=
               Some (py_eq_str (dict_get d (lit "status")) (lit "active")) |},
          <[ lit "last_quiz_id" := VStr qid ]> cfg)).
Proof.
  intros Hs qid rq Hans Hqs. unfold _load_active_quiz, run.
  destruct s as [|c s]; [done|].
  rewrite (extract_id_nonempty (c :: s)) by done. cbn [opt_val]. fold qid.
  rewrite run_from_then, run_get_quiz_by_id. cbv zeta.
  unfold quiz_request in rq. fold rq. rewrite Hans.
  cbn. rewrite Hqs. cbn.
  rewrite (mapM_result_fmap _
             (fun q => VList [match q with
                              | VDict qd => dict_get_or qd (lit "question") (VStr [])
                              | _ => VNone
                              end; VStr []])).
  2: { apply Forall_fmap, Forall_forall. by intros qd _. }
  cbn. rewrite negb_involutive, <- list_fmap_compose. done.
Qed.

(** X12: when the fetch fails, the completed-quiz table is emptied and nothing
    is raised, while the active-quiz handler raises the error. *)
Theorem quiz_fetch_failure (cfg : dict) (s : str) (e : exn) :
  s ≠ [] →
  let rq := quiz_request rt API_URL API_TOKEN (VStr (last_segment s)) in
  answer_json sv [] rq = inl e →
  run sv (_load_completed_quiz rt API_URL API_TOKEN cfg (Some s))
  = ([rq], inr (value_update []))
  ∧ run sv (_load_active_quiz rt API_URL API_TOKEN cfg (Some s)) = ([rq], inl e).
Proof.
  intros Hs rq Hans. unfold _load_completed_quiz, _load_active_quiz, run.
  destruct s as [|c s]; [done|].
  rewrite (extract_id_nonempty (c :: s)) by done. cbn [opt_val].
  unfold quiz_request in rq. split.
  - rewrite run_from_then, run_from_try, run_from_then, run_get_quiz_by_id.
    cbv zeta. fold rq. by rewrite Hans.
  - rewrite run_from_then, run_get_quiz_by_id. cbv zeta. fold rq. by rewrite Hans.
Qed.

(** X13: a completed quiz is shown with four cells a row (question, response,
    grade, feedback), an absent field as the empty text. *)
Theorem load_completed_quiz_rows (cfg : dict) (s : str) (d : dict)
    (qds : list dict) :
  s ≠ [] →
  let rq := quiz_request rt API_URL API_TOKEN (VStr (last_segment s)) in
  answer_json sv [] rq = inr (VDict d) →
  dict_get_or d (lit "questions") (VList []) = VList (VDict <$> qds) →
  run sv (_load_completed_quiz rt API_URL API_TOKEN cfg (Some s))
  = ([rq],
     inr (value_update
            ((fun qd : dict =>
                VList [dict_get_or qd (lit "question") (VStr []);
                       dict_get_or qd (lit "response") (VStr []);
                       dict_get_or qd (lit "grade") (VStr []);
                       dict_get_or qd (lit "feedback") (VStr [])]) <$> qds))).
Proof.
  intros Hs rq Hans Hqs. unfold _load_completed_quiz, run.
  destruct s as [|c s]; [done|].
  rewrite (extract_id_nonempty (c :: s)) by done. cbn [opt_val].
  unfold quiz_request in rq.
  rewrite run_from_then, run_from_try, run_from_then, run_get_quiz_by_id.
  cbv zeta. fold rq. rewrite Hans. cbn. rewrite Hqs. cbn.
  rewrite (mapM_result_fmap _
             (fun q => match q with
                       | VDict qd =>
                           VList [dict_get_or qd (lit "question") (VStr []);
                                  dict_get_or qd (lit "response") (VStr []);
                                  dict_get_or qd (lit "grade") (VStr []);
                                  dict_get_or qd (lit "feedback") (VStr [])]
                       | _ => VNone
                       end)).
  2: { apply Forall_fmap, Forall_forall. by intros qd _. }
  cbn. by rewrite <- list_fmap_compose.
Qed.

End LoadQuiz.

(** ** The outputs of the create-quiz click *)

Section CreateQuizOutputs.

Context (rt : runtime) (API_URL API_TOKEN : str).

(** The end of [_create_quiz] on a payload that is a dict with an [id]
    and whose [questions], when it has any, are dicts with a [question]:
    one answer row a question, and the id goes into the state. *)
Lemma quiz_created_rows (cfg body : dict) (qid : pyval) (qs : list dict)
    (texts : list pyval) :
  body !! lit "id" = Some qid →
  dict_get_or body (lit "questions") (VList []) = VList (VDict <$> qs) →
  Forall2 (fun (q : dict) t => q !! lit "question" = Some t) qs texts →
  quiz_created cfg (VDict body)
  = inr [OVal (VDict body);
         OUpdate (value_update ((fun t => VList [t; VStr []]) <$> texts));
         OVal (VDict (<[ lit "last_quiz_id" := qid ]> cfg))].
Proof.
  intros Hid Hqs Htexts. unfold quiz_created, result_then.
  cbn [py_subscript py_get]. rewrite Hid, Hqs. unfold pure.
  cbn [mbind result_bind py_iter]. unfold pure. cbn [mbind result_bind].
  match goal with
  | |- context [mapM ?f (VDict <$> qs)] =>
      assert (mapM f (VDict <$> qs)
              = inr ((fun t => VList [t; VStr []]) <$> texts)) as ->; [|done]
  end.
  apply mapM_result_inr. clear Hqs.
  induction Htexts as [|q t qs texts Hq _ IH]; [constructor|].
  rewrite !fmap_cons. constructor; [|exact IH].
  cbn [py_subscript]. by rewrite Hq.
Qed.

(** C9: the outputs of [_create_quiz], path by path, for a click wired
    to three outputs.  An empty selection returns a pair without a
    request.  Otherwise one POST is sent: when it fails in any way the
    handler returns a pair, the error and an empty table, with no
    session state; when the server answers a quiz (a dict with an [id]
    and questions that have a [question]) it returns a triple: the
    payload, one answer row a question, and the state with
    [last_quiz_id] set.  Whatever the answer, a success goes on to
    [quiz_created], whose value always has three outputs; so a returned
    tuple has three outputs exactly on the success path and two exactly
    on the other two. *)
Theorem create_quiz_output_count (sv : server) (cfg : dict)
    (sel : option (list str)) (climit qlimit mode : pyval) :
  let note_ids := _extract_ids_from_display_list sel in
  let rq := request_of POST (API_URL ++ lit "/quizzes") API_TOKEN
              {| kw_json :=
                   Some (VDict (ODict [(lit "note_ids", VList (VStr <$> note_ids));
                                       (lit "concept_limit", climit);
                                       (lit "question_limit", qlimit);
                                       (lit "mode", mode)]));
                 kw_timeout := None |} in
  let click := _create_quiz rt API_URL API_TOKEN cfg sel climit qlimit mode in
  length create_quiz_btn_outputs = 3
  ∧ (note_ids = [] →
     run sv click
     = ([], inr [OVal (error_payload (VStr (lit "Select at least one note.")));
                 OUpdate (value_update [])]))
  ∧ (note_ids ≠ [] → ∀ e, answer_json sv [] rq = inl e →
     run sv click
     = ([rq], inr [OVal (error_payload (VStr (CROSS ++ lit " " ++ exn_text rt e)));
                   OUpdate (value_update [])]))
  ∧ (note_ids ≠ [] →
     ∀ (body : dict) (qid : pyval) (qs : list dict) (texts : list pyval),
       answer_json sv [] rq = inr (VDict body) →
       body !! lit "id" = Some qid →
       dict_get_or body (lit "questions") (VList []) = VList (VDict <$> qs) →
       Forall2 (fun (q : dict) t => q !! lit "question" = Some t) qs texts →
       run sv click
       = ([rq], inr [OVal (VDict body);
                     OUpdate (value_update ((fun t => VList [t; VStr []]) <$> texts));
                     OVal (VDict (<[ lit "last_quiz_id" := qid ]> cfg))]))
  ∧ (note_ids ≠ [] → ∀ out, answer_json sv [] rq = inr out →
     run sv click = ([rq], quiz_created cfg out)
     ∧ ∀ outs, quiz_created cfg out = inr outs → length outs = 3)
  ∧ (∀ outs, (run sv click).2 = inr outs →
     (length outs = 3 ↔ note_ids ≠ [] ∧ ∃ out, answer_json sv [] rq = inr out)
     ∧ (length outs = 2 ↔ note_ids = [] ∨ ∃ e, answer_json sv [] rq = inl e)).
Proof.
  intros note_ids rq click. split; [reflexivity|].
  assert (Hrun : note_ids ≠ [] →
            run sv click
            = ([rq], match answer_json sv [] rq with
                     | inl e => inr [OVal (error_payload
                                             (VStr (CROSS ++ lit " " ++ exn_text rt e)));
                                     OUpdate (value_update [])]
                     | inr out => quiz_created cfg out
                     end)).
  { intros Hne. subst click. unfold _create_quiz, run. fold note_ids.
    destruct note_ids as [|i ids] eqn:Hids; [done|].
    rewrite run_from_then, run_create_quiz. cbv zeta. fold rq.
    destruct (answer_json sv [] rq) as [e|out]; [reflexivity|].
    cbn [negb]. by rewrite run_from_lift. }
  assert (Hempty : note_ids = [] →
            run sv click
            = ([], inr [OVal (error_payload (VStr (lit "Select at least one note.")));
                        OUpdate (value_update [])])).
  { intros Hnil. subst click. unfold _create_quiz. fold note_ids.
    by rewrite Hnil. }
  split; [exact Hempty|].
  split; [intros Hne e He; by rewrite (Hrun Hne), He|].
  split.
  { intros Hne body qid qs texts Hbody Hid Hqs Htexts.
    rewrite (Hrun Hne), Hbody. f_equal. by apply quiz_created_rows with qs. }
  split.
  { intros Hne out Hout. rewrite (Hrun Hne), Hout. split; [done|].
    by intros outs (rows & qid & _ & ->)%quiz_created_three. }
  intros outs. destruct (decide (note_ids = [])) as [Hnil|Hne].
  - rewrite (Hempty Hnil). intros [= <-]. split; split; try done.
    + by intros [? _].
    + by left.
  - rewrite (Hrun Hne). cbn [snd].
    destruct (answer_json sv [] rq) as [e|out].
    + intros [= <-]. split; split; try done.
      * by intros [_ [? ?]].
      * intros _. right. by eexists.
    + intros (rows & qid & _ & ->)%quiz_created_three. split; split; try done.
      * intros _. split; [done|]. by eexists.
      * by intros [?|[? ?]].
Qed.

End CreateQuizOutputs.

(** ** From creating or loading a quiz to submitting it *)

Section QuizSession.

Context (rt : runtime) (API_URL API_TOKEN : str).

(** With a quiz id and every answer filled in, [_submit_quiz] is its call
    of [submit_quiz]. *)
Lemma submit_quiz_filled (cfg : dict) (df : dataframe) :
  truthy (dict_get cfg (lit "last_quiz_id")) = true →
  answers_of rt df ≠ [] → [] ∉ answers_of rt df →
  _submit_quiz rt API_URL API_TOKEN cfg df
  = prog_then (submit_quiz rt API_URL API_TOKEN
                 (dict_get cfg (lit "last_quiz_id")) (answers_of rt df))
      (fun '(ok, out) => if negb ok then mret (error_payload out) else mret out).
Proof.
  intros Hq Hne Hfilled. unfold _submit_quiz.
  rewrite Hq, (all_attempted_filled _ Hfilled).
  by destruct (answers_of rt df).
Qed.

(** X10: when [_create_quiz] returns its three outputs, the state it returns
    is the old one with [last_quiz_id] set to the [id] of the payload,
    and a submit from that state, with answers filled in, goes to that
    quiz. *)
Theorem created_quiz_is_submitted (sv sv' : server) (cfg cfg' : dict)
    (sels : option (list str)) (cl ql mode out : pyval) (upd : update)
    (df : dataframe) sent :
  run sv (_create_quiz rt API_URL API_TOKEN cfg sels cl ql mode)
  = (sent, inr [OVal out; OUpdate upd; OVal (VDict cfg')]) →
  ∃ qid,
    py_subscript out (lit "id") = inr qid
    ∧ cfg' = <[ lit "last_quiz_id" := qid ]> cfg
    ∧ (truthy qid = true → answers_of rt df ≠ [] → [] ∉ answers_of rt df →
       (run sv' (_submit_quiz rt API_URL API_TOKEN cfg' df)).1
       = [submit_request rt API_URL API_TOKEN qid (answers_of rt df)]).
Proof.
  unfold _create_quiz, run.
  destruct (_extract_ids_from_display_list sels) as [|i ids]; [done|].
  rewrite run_from_then, run_create_quiz. cbv zeta.
  destruct (answer_json sv [] _) as [e|body]; [done|].
  cbn [negb]. rewrite run_from_lift. intros [= _ Hcreated].
  apply quiz_created_three in Hcreated as (rows & qid & Hid & [= -> _ ->]).
  exists qid. split; [done|]. split; [done|].
  intros Hq Hne Hfilled.
  assert (dict_get (<[ lit "last_quiz_id" := qid ]> cfg) (lit "last_quiz_id") = qid)
    as Hget by (unfold dict_get; by rewrite odict_lookup_insert_eq).
  rewrite submit_quiz_filled by (by rewrite ?Hget).
  rewrite Hget, run_from_then, run_submit_quiz. cbv zeta.
  by destruct (answer_json sv' [] _).
Qed.

End QuizSession.

(** ** Notes: content, upload, delete, refresh *)

Section NotesTab.

Context (rt : runtime) (API_URL API_TOKEN : str) (sv : server).

(** X14: [_show_content] never raises.  Without a selection it warns and sends
    nothing; otherwise it sends one GET for the decoded id and shows the
    [content] of the answer, or "❌ " and the text of whatever was raised. *)
Theorem show_content_never_raises (cfg : dict) (sel : option str) :
  ∃ sent v,
    run sv (_show_content rt API_URL API_TOKEN cfg sel) = (sent, inr v)
    ∧ match _extract_id_from_display sel with
      | None | Some [] => sent = [] ∧ v = VStr (WARN ++ lit " No note selected.")
      | Some nid =>
          let rq := request_of GET (API_URL ++ lit "/notes/" ++ nid) API_TOKEN
                      no_kwargs in
          sent = [rq]
          ∧ v = match (let* body := answer_json sv [] rq in
                       py_subscript body (lit "content"))%result with
                | inr content => content
                | inl e => VStr (CROSS ++ lit " " ++ exn_text rt e)
                end
      end.
Proof.
  unfold _show_content, run.
  destruct (_extract_id_from_display sel) as [[|c nid]|].
  - by eexists _, _.
  - rewrite run_from_try, run_get_note_content. cbv zeta.
    destruct (result_then _ _) as [e|content]; by eexists _, _.
  - by eexists _, _.
Qed.

(** X15: a text upload with an empty name or content sends nothing, and the
    status shows the cross mark twice, the handler adding its own. *)
Theorem upload_txt_missing_field (cfg : dict) (name cont : pyval) :
  truthy name = false ∨ truthy cont = false →
  run sv (_upload_txt rt API_URL API_TOKEN cfg name cont)
  = ([], inr (VStr (CROSS ++ lit " " ++ CROSS
                      ++ lit " Both name and content are required."))).
Proof.
  intros Hmissing. unfold _upload_txt, upload_text, run.
  assert (negb (truthy name) || negb (truthy cont) = true) as ->.
  { destruct Hmissing as [-> | ->]; [done | apply orb_true_r]. }
  done.
Qed.

(** X16: with both fields given, [_upload_txt] sends one POST to /notes/text
    with the name and the content and never raises: it shows the
    [note_id] of the answer, or "❌ ❌ " and the text of what was raised. *)
Theorem upload_txt_posts (cfg : dict) (name cont : pyval) :
  truthy name = true → truthy cont = true →
  let rq := request_of POST (API_URL ++ lit "/notes/text") API_TOKEN
              {| kw_json := Some (VDict (ODict [(lit "name", name); (lit "content", cont)]));
                 kw_timeout := None |} in
  run sv (_upload_txt rt API_URL API_TOKEN cfg name cont)
  = ([rq],
     inr (match (let* body := answer_json sv [] rq in
                 py_subscript body (lit "note_id"))%result with
          | inr note_id => note_id
          | inl e => VStr (CROSS ++ lit " " ++ CROSS ++ lit " " ++ exn_text rt e)
          end)).
Proof.
  intros Hname Hcont rq. unfold _upload_txt, upload_text, run.
  rewrite Hname, Hcont. cbn [negb orb].
  rewrite run_from_then, run_from_try, run_fetch_then. cbv zeta. fold rq.
  unfold result_then. destruct (answer_json sv [] rq) as [e|body]; [done|].
  cbn. rewrite run_from_then, run_from_lift.
  by destruct (py_subscript body (lit "note_id")).
Qed.

(** X17: the requests of [_delete_note], for a selection that decodes to a
    non-empty id.  When the DELETE fails it is the only request, the
    table and the selector are emptied and the message carries the cross
    mark twice.  When it succeeds a GET of the notes follows, and what
    that listing raises the handler raises, after the delete. *)
Theorem delete_note_requests (cfg : dict) (sel : option str) (c : N) (nid : str) :
  _extract_id_from_display sel = Some (c :: nid) →
  let rq1 := request_of DELETE (API_URL ++ lit "/notes/" ++ c :: nid) API_TOKEN
               no_kwargs in
  let rq2 := request_of GET (API_URL ++ lit "/notes") API_TOKEN no_kwargs in
  let cleared := {| upd_choices := Some []; upd_value := Some VNone;
                    upd_interactive := None |} in
  run sv (_delete_note rt API_URL API_TOKEN cfg sel)
  = match answer_json sv [] rq1 with
    | inl e =>
        ([rq1], inr (CROSS ++ lit " " ++ CROSS ++ lit " " ++ exn_text rt e,
                     VList [], cleared))
    | inr _ =>
        ([rq1; rq2],
         match (let* body := answer_json sv [rq1] rq2 in notes_of body)%result with
         | inl e => inl e
         | inr notes =>
             inr (CHECK ++ lit " Note deleted.",
                  VList ((fun n : note => VList [n.1.1; n.1.2; n.2]) <$> notes),
                  {| upd_choices := Some (_format_note_choices rt notes);
                     upd_value := Some VNone; upd_interactive := None |})
         end)
    end.
Proof.
  intros Hsel rq1 rq2 cleared. unfold _delete_note, run. rewrite Hsel.
  rewrite run_from_then, run_delete_note. cbv zeta. fold rq1.
  destruct (answer_json sv [] rq1) as [e|body]; [done|].
  cbn [negb failed]. rewrite run_from_then, run_list_notes. cbv zeta. fold rq2.
  by destruct (result_then _ _).
Qed.

(** X18: the three note refreshers send the same single GET.  When the listing
    raises they raise; otherwise they offer the same choices, one label
    per note in the server's order, and the table has one (name, status)
    row per note: [_refresh_notes] and [_refresh_concept] preselect the
    first label (nothing for an empty list), [_refresh_quiz_notes]
    preselects nothing. *)
Theorem note_refreshers_agree (cfg : dict) :
  let rq := request_of GET (API_URL ++ lit "/notes") API_TOKEN no_kwargs in
  match (let* body := answer_json sv [] rq in notes_of body)%result with
  | inl e =>
      run sv (_refresh_notes rt API_URL API_TOKEN cfg) = ([rq], inl e)
      ∧ run sv (_refresh_concept rt API_URL API_TOKEN cfg) = ([rq], inl e)
      ∧ run sv (_refresh_quiz_notes rt API_URL API_TOKEN cfg) = ([rq], inl e)
  | inr notes =>
      let choices := _format_note_choices rt notes in
      let first := {| upd_choices := Some choices;
                      upd_value := Some (from_option VStr VNone (head choices));
                      upd_interactive := None |} in
      length choices = length notes
      ∧ run sv (_refresh_notes rt API_URL API_TOKEN cfg)
        = ([rq], inr (VList ((fun n : note => VList [n.1.2; n.2]) <$> notes), first))
      ∧ run sv (_refresh_concept rt API_URL API_TOKEN cfg) = ([rq], inr first)
      ∧ run sv (_refresh_quiz_notes rt API_URL API_TOKEN cfg)
        = ([rq], inr {| upd_choices := Some choices; upd_value := Some VNone;
                        upd_interactive := None |})
  end.
Proof.
  intros rq.
  unfold _refresh_notes, _refresh_concept, _refresh_quiz_notes, run.
  rewrite !run_from_then, !run_list_notes. cbv zeta. fold rq.
  destruct (result_then _ _) as [e|notes]; [done|].
  assert (∀ l : list str, first_or_none l = from_option VStr VNone (head l)) as Hfirst
    by by intros [|??].
  cbn. rewrite Hfirst. unfold _format_note_choices. by rewrite length_fmap.
Qed.

End NotesTab.

(** ** Tables and selectors of the other tabs *)

Section OtherTabs.

Context (rt : runtime) (API_URL API_TOKEN : str) (sv : server).



Lemma quizzes_with_status_dicts (status : str) (qds : list dict) :
  quizzes_with_status status (VDict <$> qds)
  = inr (VDict <$> filter (fun qd : dict =>
                             py_eq_str (dict_get qd (lit "status")) status = true)
                     qds).
Proof.
  induction qds as [|qd qds IH]; [done|].
  rewrite filter_cons, fmap_cons. cbn [quizzes_with_status py_get].
  rewrite IH. unfold result_then, dict_get, dict_get_or. cbn [mbind result_bind pure].
  destruct (py_eq_str (default VNone (qd !! lit "status")) status) eqn:E.
  - by rewrite decide_True.
  - by rewrite decide_False by congruence.
Qed.

(** X20: for a listing of quiz objects, each of the two quiz selectors sends
    one GET and offers the labels of exactly the quizzes whose status is
    its own ("active", "completed"), in the server's order, the first one
    preselected; a label that can not be built makes that refresh raise. *)
Theorem quiz_selectors_by_status (cfg : dict) (qds : list dict) :
  let rq := request_of GET (API_URL ++ lit "/quizzes") API_TOKEN no_kwargs in
  let offered := fun status : str =>
    (let* choices :=
       mapM (_format_quiz_choice rt)
         (filter (fun qd : dict =>
                    py_eq_str (dict_get qd (lit "status")) status = true) qds) in
     pure {| upd_choices := Some choices;
             upd_value := Some (first_or_none choices);
             upd_interactive := None |})%result in
  answer_json sv [] rq = inr (VList (VDict <$> qds)) →
  run sv (_refresh_active_quizzes rt API_URL API_TOKEN cfg)
  = ([rq], offered (lit "active"))
  ∧ run sv (_refresh_completed_quizzes rt API_URL API_TOKEN cfg)
    = ([rq], offered (lit "completed")).
Proof.
  intros rq offered Hans.
  assert (∀ status, run sv (refresh_quizzes rt API_URL API_TOKEN status)
                    = ([rq], offered status)) as Hboth; [|split; apply Hboth].
  intros status. unfold refresh_quizzes, run.
  rewrite run_from_then, run_list_quizzes. cbv zeta. fold rq. rewrite Hans.
  cbn [app]. rewrite run_from_then, run_from_lift. cbn [py_iter]. unfold pure.
  rewrite run_from_then, run_from_lift, quizzes_with_status_dicts.
  rewrite run_from_then, run_from_lift. unfold offered, result_then.
  assert (∀ l : list dict,
            mapM (format_quiz_value rt) (VDict <$> l)
            = mapM (_format_quiz_choice rt) l) as ->.
  { induction l as [|qd l IH]; [done|].
    cbn [fmap list_fmap]. rewrite !mapM_result_cons.
    change (list_fmap dict pyval VDict l) with (VDict <$> l). by rewrite IH. }
  by destruct (mapM _ _).
Qed.

End OtherTabs.

(** ** The theorems above on concrete runs *)

Lemma load_active_quiz_loads_witness :
  run (server_ok (VDict sample_quiz))
      (_load_active_quiz sample_runtime (lit "http://api") [] cfg_state
         (Some (lit "Quiz 1" ++ SEP ++ lit "q1")))
  = ([quiz_request sample_runtime (lit "http://api") [] (VStr (lit "q1"))],
     inr ({| upd_choices := None;
             upd_value := Some (VList [VList [VStr (lit "Why?"); VStr []]]);
             upd_interactive := Some true |},
          <[ lit "last_quiz_id" := VStr (lit "q1") ]> cfg_state)).
Proof.
  refine (eq_trans
            (load_active_quiz_loads sample_runtime (lit "http://api") []
               (server_ok (VDict sample_quiz)) cfg_state
               (lit "Quiz 1" ++ SEP ++ lit "q1") sample_quiz [sample_question]
               _ _ _) _).
  - discriminate.
  - vm_compute; reflexivity.
  - vm_compute; reflexivity.
  - vm_compute; reflexivity.
Defined.

Lemma quiz_fetch_failure_witness :
  run server_down
      (_load_completed_quiz sample_runtime (lit "http://api") [] cfg_state
         (Some (lit "Quiz 1" ++ SEP ++ lit "q1")))
  = ([quiz_request sample_runtime (lit "http://api") []
        (VStr (last_segment (lit "Quiz 1" ++ SEP ++ lit "q1")))],
     inr (value_update []))
  ∧ run server_down
        (_load_active_quiz sample_runtime (lit "http://api") [] cfg_state
           (Some (lit "Quiz 1" ++ SEP ++ lit "q1")))
    = ([quiz_request sample_runtime (lit "http://api") []
          (VStr (last_segment (lit "Quiz 1" ++ SEP ++ lit "q1")))],
       inl (HTTPError (lit "500 Server Error"))).
Proof.
  apply (quiz_fetch_failure sample_runtime (lit "http://api") [] server_down
           cfg_state (lit "Quiz 1" ++ SEP ++ lit "q1")
           (HTTPError (lit "500 Server Error"))).
  - discriminate.
  - vm_compute; reflexivity.
Defined.

Lemma load_completed_quiz_rows_witness :
  run (server_ok (VDict sample_quiz))
      (_load_completed_quiz sample_runtime (lit "http://api") [] cfg_state
         (Some (lit "Quiz 1" ++ SEP ++ lit "q1")))
  = ([quiz_request sample_runtime (lit "http://api") [] (VStr (lit "q1"))],
     inr (value_update [VList [VStr (lit "Why?"); VStr []; VStr []; VStr []]])).
Proof.
  refine (eq_trans
            (load_completed_quiz_rows sample_runtime (lit "http://api") []
               (server_ok (VDict sample_quiz)) cfg_state
               (lit "Quiz 1" ++ SEP ++ lit "q1") sample_quiz [sample_question]
               _ _ _) _).
  - discriminate.
  - vm_compute; reflexivity.
  - vm_compute; reflexivity.
  - vm_compute; reflexivity.
Defined.

Lemma create_quiz_output_count_witness :
  let out : dict := ODict [(lit "id", VStr (lit "q1"));
                           (lit "questions", VList [VDict sample_question])] in
  let sel := Some [lit "Biology" ++ SEP ++ lit "n1"] in
  (run (server_ok (VDict out))
       (_create_quiz sample_runtime (lit "http://api") [] cfg_state sel
          (VInt 5) (VInt 10) (VStr (lit "mixed")))).2
  = inr [OVal (VDict out);
         OUpdate (value_update [VList [VStr (lit "Why?"); VStr []]]);
         OVal (VDict (ODict [(lit "last_note_id", VNone);
                             (lit "last_quiz_id", VStr (lit "q1"))]))]
  ∧ (run server_down
         (_create_quiz sample_runtime (lit "http://api") [] cfg_state sel
            (VInt 5) (VInt 10) (VStr (lit "mixed")))).2
    = inr [OVal (error_payload (VStr (CROSS ++ lit " 500 Server Error")));
           OUpdate (value_update [])].
Proof.
  intros out sel. split.
  - destruct (create_quiz_output_count sample_runtime (lit "http://api") []
                (server_ok (VDict out)) cfg_state sel
                (VInt 5) (VInt 10) (VStr (lit "mixed")))
      as (_ & _ & _ & Hquiz & _).
    refine (eq_trans (f_equal snd
              (Hquiz _ out (VStr (lit "q1")) [sample_question]
                 [VStr (lit "Why?")] _ _ _ _)) _).
    + vm_compute; discriminate.
    + vm_compute; reflexivity.
    + vm_compute; reflexivity.
    + vm_compute; reflexivity.
    + repeat constructor.
    + vm_compute; reflexivity.
  - destruct (create_quiz_output_count sample_runtime (lit "http://api") []
                server_down cfg_state sel
                (VInt 5) (VInt 10) (VStr (lit "mixed")))
      as (_ & _ & Hfail & _).
    refine (eq_trans (f_equal snd
              (Hfail _ (HTTPError (lit "500 Server Error")) _)) _).
    + vm_compute; discriminate.
    + vm_compute; reflexivity.
    + vm_compute; reflexivity.
Defined.

Lemma created_quiz_is_submitted_witness :
  let out := VDict (<[ lit "id" := VStr (lit "q1") ]> sample_quiz) in
  let cfg' : dict := <[ lit "last_quiz_id" := VStr (lit "q1") ]> cfg_state in
  let df := DfPandas {[ lit "answer" := [VStr (lit " Paris "); VStr (lit "Seine")] ]} in
  let sv' := server_ok (VDict {[ lit "score" := VInt 2 ]}) in
  py_subscript out (lit "id") = inr (VStr (lit "q1"))
  ∧ (run sv' (_submit_quiz sample_runtime (lit "http://api") [] cfg' df)).1
    = [submit_request sample_runtime (lit "http://api") [] (VStr (lit "q1"))
         [lit "Paris"; lit "Seine"]].
Proof.
  intros out cfg' df sv'.
  destruct (created_quiz_is_submitted sample_runtime (lit "http://api") []
              (server_ok out) sv' cfg_state cfg'
              (Some [lit "Biology" ++ SEP ++ lit "n1"])
              (VInt 5) (VInt 10) (VStr (lit "mixed")) out
              (value_update [VList [VStr (lit "Why?"); VStr []]])
              df
              (run (server_ok out)
                 (_create_quiz sample_runtime (lit "http://api") [] cfg_state
                    (Some [lit "Biology" ++ SEP ++ lit "n1"])
                    (VInt 5) (VInt 10) (VStr (lit "mixed")))).1)
    as (qid & Hid & _ & Hsubmit).
  - vm_compute; reflexivity.
  - change (inr (VStr (lit "q1")) = (inr qid : result pyval)) in Hid.
    injection Hid as <-. split; [reflexivity|].
    refine (eq_trans (Hsubmit _ _ _) _).
    + reflexivity.
    + vm_compute; discriminate.
    + apply (bool_decide_unpack _). vm_compute. exact I.
    + vm_compute; reflexivity.
Defined.

Lemma upload_txt_missing_field_witness :
  run server_down
      (_upload_txt sample_runtime (lit "http://api") [] cfg_state
         (VStr []) (VStr (lit "text")))
  = ([], inr (VStr (CROSS ++ lit " " ++ CROSS
                      ++ lit " Both name and content are required."))).
Proof.
  apply (upload_txt_missing_field sample_runtime (lit "http://api") [] server_down).
  left; reflexivity.
Defined.

Lemma upload_txt_posts_witness :
  (run (server_ok (VDict {[ lit "note_id" := VStr (lit "n9") ]}))
       (_upload_txt sample_runtime (lit "http://api") [] cfg_state
          (VStr (lit "Photosynthesis")) (VStr (lit "text")))).2
  = inr (VStr (lit "n9")).
Proof.
  refine (eq_trans
            (f_equal snd
               (upload_txt_posts sample_runtime (lit "http://api") []
                  (server_ok (VDict {[ lit "note_id" := VStr (lit "n9") ]}))
                  cfg_state (VStr (lit "Photosynthesis")) (VStr (lit "text"))
                  _ _)) _).
  - reflexivity.
  - reflexivity.
  - vm_compute; reflexivity.
Defined.

Lemma delete_note_requests_witness :
  run server_down
      (_delete_note sample_runtime (lit "http://api") [] cfg_state
         (Some (lit "Old note" ++ SEP ++ lit "n0")))
  = ([request_of DELETE (lit "http://api" ++ lit "/notes/" ++ lit "n0") []
        no_kwargs],
     inr (CROSS ++ lit " " ++ CROSS ++ lit " 500 Server Error", VList [],
          {| upd_choices := Some []; upd_value := Some VNone;
             upd_interactive := None |})).
Proof.
  refine (eq_trans
            (delete_note_requests sample_runtime (lit "http://api") [] server_down
               cfg_state (Some (lit "Old note" ++ SEP ++ lit "n0"))
               110%N (lit "0") _) _).
  - vm_compute; reflexivity.
  - vm_compute; reflexivity.
Defined.


Lemma quiz_selectors_by_status_witness :
  (run (server_ok (VList (VDict <$> sample_quizzes)))
       (_refresh_active_quizzes sample_runtime (lit "http://api") [] cfg_state)).2
  = inr {| upd_choices := Some [lit "Quiz q1" ++ SEP ++ lit "q1"];
           upd_value := Some (VStr (lit "Quiz q1" ++ SEP ++ lit "q1"));
           upd_interactive := None |}.
Proof.
  refine (eq_trans
            (f_equal snd
               (proj1 (quiz_selectors_by_status sample_runtime (lit "http://api")
                         [] (server_ok (VList (VDict <$> sample_quizzes)))
                         cfg_state sample_quizzes _))) _).
  - vm_compute; reflexivity.
  - vm_compute; reflexivity.
Defined.
